(** * process_analyzer.py: the ProcessAnalyzer of project-skn

    A shallow embedding of [src/process_analyzer.py].  The script loads a
    CSV event log with pandas, hands it to pm4py, lays the observed
    activities out as a linear BPMN flow and renders a commented Sankhya
    Flow script from the bottleneck lines.

    Python values are modelled as the code has them:
    - a [str] is a sequence of Unicode code points ([pystr]);
    - exceptions are a [result] monad ([Ok] / [Raise]);
    - [self] is an explicit [ProcessAnalyzer] record threaded through the
      methods;
    - the third-party calls (pandas, pm4py, the BPMN serializer) are
      parameters of a section;
    - the progress messages written with [print] are left out: no method
      reads them back. *)

From Stdlib Require Import String Ascii.
From Stdlib Require Import List NArith ZArith Bool Lia Permutation.
Import ListNotations.
Local Open Scope list_scope.

(** ** Python strings *)

Module PyStr.

(** A Python [str]: the list of its code points. *)
Definition pystr := list N.

Definition bytes_of_string (s : string) : list N :=
  map N_of_ascii (list_ascii_of_string s).

(** UTF-8 decoding of the bytes of a source literal (sequences of one to
    four bytes; a truncated sequence ends the text). *)
Fixpoint utf8_decode (bs : list N) : pystr :=
  match bs with
  | [] => []
  | b :: r =>
    if (b <? 128)%N then b :: utf8_decode r
    else if (b <? 224)%N then
      match r with
      | c1 :: r1 => ((b - 192) * 64 + (c1 - 128))%N :: utf8_decode r1
      | _ => []
      end
    else if (b <? 240)%N then
      match r with
      | c1 :: c2 :: r2 =>
        ((b - 224) * 4096 + (c1 - 128) * 64 + (c2 - 128))%N :: utf8_decode r2
      | _ => []
      end
    else
      match r with
      | c1 :: c2 :: c3 :: r3 =>
        ((b - 240) * 262144 + (c1 - 128) * 4096 + (c2 - 128) * 64 + (c3 - 128))%N
          :: utf8_decode r3
      | _ => []
      end
  end.

(** A string literal of the source file. *)
Definition lit (s : string) : pystr := utf8_decode (bytes_of_string s).

(** Characters that cannot be written inside a literal here. *)
Definition nl : pystr := [10%N].
Definition dquote : pystr := [34%N].

Definition str_eqb (a b : pystr) : bool :=
  if list_eq_dec N.eq_dec a b then true else false.

(** [s.startswith(p)] *)
Fixpoint startswith (p s : pystr) : bool :=
  match p, s with
  | [], _ => true
  | _ :: _, [] => false
  | a :: p', b :: s' => (a =? b)%N && startswith p' s'
  end.

(** [sub in s]: substring test. *)
Fixpoint isin (sub s : pystr) : bool :=
  startswith sub s ||
  match s with
  | [] => false
  | _ :: s' => isin sub s'
  end.

(** The scan of [s.split(sep)] for a non-empty [sep]: [cur] holds the
    current piece reversed, [skip] counts the characters of a separator
    that has just been matched and is being stepped over. *)
Fixpoint split_scan (sep s cur : pystr) (skip : nat) : list pystr :=
  match s with
  | [] => [rev cur]
  | c :: s' =>
    match skip with
    | S k => split_scan sep s' cur k
    | O =>
      if startswith sep s
      then rev cur :: split_scan sep s' [] (length sep - 1)
      else split_scan sep s' (c :: cur) 0
    end
  end.

(** Python's whitespace ([str.isspace] on one character), the set that
    [str.strip()] without argument removes. *)
Definition isspace (c : N) : bool :=
  ((9 <=? c) && (c <=? 13) || (28 <=? c) && (c <=? 32)
   || (c =? 133) || (c =? 160) || (c =? 5760)
   || (8192 <=? c) && (c <=? 8202)
   || (c =? 8232) || (c =? 8233) || (c =? 8239) || (c =? 8287)
   || (c =? 12288))%N.

Fixpoint lstrip (s : pystr) : pystr :=
  match s with
  | [] => []
  | c :: s' => if isspace c then lstrip s' else s
  end.

Definition rstrip (s : pystr) : pystr := rev (lstrip (rev s)).

(** [s.strip()] *)
Definition strip (s : pystr) : pystr := rstrip (lstrip s).

(** Reference functions used to state what [split] returns: the text
    before the first occurrence of [sep] (all of [s] when there is none)
    and the text after it. *)
Fixpoint before (sep s : pystr) : pystr :=
  match s with
  | [] => []
  | c :: s' => if startswith sep s then [] else c :: before sep s'
  end.

Fixpoint first_after (sep s : pystr) : option pystr :=
  match s with
  | [] => if startswith sep s then Some [] else None
  | _ :: s' => if startswith sep s then Some (skipn (length sep) s)
               else first_after sep s'
  end.

(** [sub] occurs in [s] as a contiguous block. *)
Definition substring (sub s : pystr) : Prop :=
  exists a b, s = a ++ sub ++ b.

End PyStr.
Import PyStr.

(** ** Exceptions *)

Inductive exn : Type :=
| IndexError
| ValueError
| TypeError
| LibraryError (msg : pystr).

Inductive result (A : Type) : Type :=
| Ok (a : A)
| Raise (e : exn).
Arguments Ok {A} a.
Arguments Raise {A} e.

Definition bind {A B} (m : result A) (k : A -> result B) : result B :=
  match m with
  | Ok a => k a
  | Raise e => Raise e
  end.

Notation "x <- m ;; k" := (bind m (fun x => k))
  (at level 61, m at next level, right associativity).

(** A [for] loop whose body updates the loop state and may raise. *)
Fixpoint for_each {S A} (body : S -> A -> result S) (s : S) (l : list A)
  : result S :=
  match l with
  | [] => Ok s
  | x :: l' => s' <- body s x ;; for_each body s' l'
  end.

(** [l[i]] with Python's negative indices. *)
Definition py_index {A} (l : list A) (i : Z) : result A :=
  let n := Z.of_nat (length l) in
  let j := if (i <? 0)%Z then (i + n)%Z else i in
  if ((0 <=? j) && (j <? n))%Z then
    match nth_error l (Z.to_nat j) with
    | Some x => Ok x
    | None => Raise IndexError
    end
  else Raise IndexError.

(** [range(stop)] *)
Definition range (stop : Z) : list Z :=
  map Z.of_nat (seq 0 (Z.to_nat stop)).

(** [s.split(sep)]: [ValueError] on an empty separator. *)
Definition split (sep s : pystr) : result (list pystr) :=
  match sep with
  | [] => Raise ValueError
  | _ :: _ => Ok (split_scan sep s [] 0)
  end.

(** ** The report templater: [generate_sankhya_flow_script] *)

Module Sankhya.

(** The body of the loop [for bottleneck in bottlenecks] (lines 118-129),
    on the accumulated [script_content]. *)
Definition render_bottleneck (script_content bottleneck : pystr)
  : result pystr :=
  let script_content := script_content ++ (lit "// " ++ bottleneck ++ nl) in
  if isin (lit "Atividade: ") bottleneck then
    parts <- split (lit "Atividade: ") bottleneck ;;
    tail <- py_index parts 1 ;;
    fields <- split (lit ",") tail ;;
    field <- py_index fields 0 ;;
    let activity_name := strip field in
    let script_content := script_content ++
      (lit "// Exemplo de automação para a atividade '" ++ activity_name
         ++ lit "':" ++ nl) in
    let script_content := script_content ++
      (lit "// var query = getQuery();" ++ nl) in
    let script_content := script_content ++
      (lit "// query.nativeSelect(" ++ dquote
         ++ lit "SELECT * FROM TGFTAB WHERE DESCRICAO = \'" ++ activity_name
         ++ lit "\'" ++ dquote ++ lit ");" ++ nl) in
    let script_content := script_content ++
      (lit "// if (query.next()) { " ++ nl) in
    let script_content := script_content ++
      (lit "//     mensagem = 'Atividade " ++ activity_name
         ++ lit " encontrada. Iniciando otimização...';" ++ nl) in
    let script_content := script_content ++
      (lit "//     // Adicione aqui a lógica de automação específica para a otimização desta atividade" ++ nl) in
    let script_content := script_content ++
      (lit "// } else { " ++ nl) in
    let script_content := script_content ++
      (lit "//     mostraErro('Atividade " ++ activity_name
         ++ lit " não encontrada para otimização.');" ++ nl) in
    let script_content := script_content ++
      (lit "// }" ++ nl ++ nl) in
    Ok script_content
  else Ok script_content.

Definition generate_sankhya_flow_script (bottlenecks : list pystr)
  : result pystr :=
  let script_content :=
    lit "// Script de Automação Sankhya Flow gerado por IA" ++ nl ++ nl in
  let script_content := script_content ++
    (lit "// Este script pode ser usado para automatizar otimizações de processos identificadas." ++ nl ++ nl) in
  script_content <-
    match bottlenecks with
    | _ :: _ =>
      let script_content := script_content ++
        (lit "// Gargalos identificados e sugestões de otimização:" ++ nl) in
      for_each render_bottleneck script_content bottlenecks
    | [] =>
      Ok (script_content ++
        (lit "// Nenhum gargalo significativo identificado para gerar automações." ++ nl))
    end ;;
  let script_content := script_content ++
    (lit "// Para mais informações sobre as APIs JavaScript do Sankhya, consulte a documentação oficial." ++ nl) in
  Ok script_content.

(** *** Reference texts used in the statements *)

Definition marker : pystr := lit "Atividade: ".
Definition comma : pystr := lit ",".

Definition header_line : pystr :=
  lit "// Script de Automação Sankhya Flow gerado por IA" ++ nl.

Definition header_block : pystr :=
  header_line ++ nl ++
  lit "// Este script pode ser usado para automatizar otimizações de processos identificadas." ++ nl ++ nl.

Definition found_heading : pystr :=
  lit "// Gargalos identificados e sugestões de otimização:" ++ nl.

Definition no_bottleneck_line : pystr :=
  lit "// Nenhum gargalo significativo identificado para gerar automações." ++ nl.

Definition footer_line : pystr :=
  lit "// Para mais informações sobre as APIs JavaScript do Sankhya, consulte a documentação oficial." ++ nl.

Definition comment_line (bottleneck : pystr) : pystr :=
  lit "// " ++ bottleneck ++ nl.

Definition query_line (activity_name : pystr) : pystr :=
  lit "// query.nativeSelect(" ++ dquote
    ++ lit "SELECT * FROM TGFTAB WHERE DESCRICAO = \'" ++ activity_name
    ++ lit "\'" ++ dquote ++ lit ");" ++ nl.

Definition branch_line (activity_name : pystr) : pystr :=
  lit "// if (query.next()) { " ++ nl ++
  lit "//     mensagem = 'Atividade " ++ activity_name
    ++ lit " encontrada. Iniciando otimização...';" ++ nl.

Definition error_line (activity_name : pystr) : pystr :=
  lit "//     mostraErro('Atividade " ++ activity_name
    ++ lit " não encontrada para otimização.');" ++ nl.

(** The whole block emitted for a line that carries the marker. *)
Definition activity_template (activity_name : pystr) : pystr :=
  lit "// Exemplo de automação para a atividade '" ++ activity_name
    ++ lit "':" ++ nl ++
  lit "// var query = getQuery();" ++ nl ++
  query_line activity_name ++
  branch_line activity_name ++
  lit "//     // Adicione aqui a lógica de automação específica para a otimização desta atividade" ++ nl ++
  lit "// } else { " ++ nl ++
  error_line activity_name ++
  lit "// }" ++ nl ++ nl.

(** The name the code extracts from the text [tail] that follows the
    first marker: cut at the next marker, then at the first comma, then
    stripped of surrounding whitespace. *)
Definition extracted_name (tail : pystr) : pystr :=
  strip (before comma (before marker tail)).

(** What one bottleneck line contributes to the report. *)
Definition rendered (bottleneck : pystr) : pystr :=
  comment_line bottleneck ++
  match first_after marker bottleneck with
  | Some tail => activity_template (extracted_name tail)
  | None => []
  end.

(** The example line of the spec, with the marker the code looks for. *)
Definition approve_line : pystr :=
  lit "Atividade: Approve, Avg Wait: 3.2, Avg Service: 1.1".

End Sankhya.

(** ** The linear flow synthesizer: the diagram of [generate_bpmn_xml_content] *)

Module Bpmn.

Inductive node_type : Type := task | startEvent | endEvent.

Record flow_node : Type := {
  node_process : pystr;
  node_kind : node_type;
  node_id : pystr;
  node_name : pystr
}.

Record sequence_flow : Type := {
  flow_process : pystr;
  source_ref : pystr;
  target_ref : pystr
}.

(** Modelled from the spec: the class [BPMNDiagram] comes from the
    third-party package [bpmn_python], which is not part of the
    repository.  Following the LinearFlow of the spec's data model, a
    diagram is its processes, its nodes and its directed edges, each kept
    in the order in which the calls add them; an edge names its two ends
    by node id, as the calls do. *)
Record BPMNDiagram : Type := {
  processes : list (pystr * pystr);
  flow_nodes : list flow_node;
  sequence_flows : list sequence_flow
}.

Definition new_diagram : BPMNDiagram :=
  {| processes := []; flow_nodes := []; sequence_flows := [] |}.

Definition add_process_to_diagram (d : BPMNDiagram)
    (process_id process_name : pystr) : BPMNDiagram :=
  {| processes := processes d ++ [(process_id, process_name)];
     flow_nodes := flow_nodes d;
     sequence_flows := sequence_flows d |}.

Definition add_flow_node (d : BPMNDiagram) (n : flow_node) : BPMNDiagram :=
  {| processes := processes d;
     flow_nodes := flow_nodes d ++ [n];
     sequence_flows := sequence_flows d |}.

Definition add_task_to_process (d : BPMNDiagram)
    (process_id task_name task_id : pystr) : BPMNDiagram :=
  add_flow_node d {| node_process := process_id; node_kind := task;
                     node_id := task_id; node_name := task_name |}.

Definition add_start_event_to_process (d : BPMNDiagram)
    (process_id event_id event_name : pystr) : BPMNDiagram :=
  add_flow_node d {| node_process := process_id; node_kind := startEvent;
                     node_id := event_id; node_name := event_name |}.

Definition add_end_event_to_process (d : BPMNDiagram)
    (process_id event_id event_name : pystr) : BPMNDiagram :=
  add_flow_node d {| node_process := process_id; node_kind := endEvent;
                     node_id := event_id; node_name := event_name |}.

Definition add_sequence_flow_to_process (d : BPMNDiagram)
    (process_id source_ref_id target_ref_id : pystr) : BPMNDiagram :=
  {| processes := processes d;
     flow_nodes := flow_nodes d;
     sequence_flows := sequence_flows d ++
       [{| flow_process := process_id; source_ref := source_ref_id;
           target_ref := target_ref_id |}] |}.

(** The constants of lines 86-99. *)
Definition process_id : pystr := lit "Process_1".
Definition process_name : pystr := lit "Processo Descoberto".
Definition start_event_id : pystr := lit "StartEvent_1".
Definition start_event_name : pystr := lit "Início".
Definition end_event_id : pystr := lit "EndEvent_1".
Definition end_event_name : pystr := lit "Fim".

(** [len(activities)] *)
Definition len {A} (l : list A) : Z := Z.of_nat (length l).

(** Lines 85-106: the diagram built from the array [activities].  The
    three kinds of index expression ([activities[0]], [activities[i]] and
    [activities[i+1]], [activities[-1]]) may raise [IndexError]. *)
Definition build_bpmn_diagram (activities : list pystr)
  : result BPMNDiagram :=
  let bpmn_diagram := new_diagram in
  let bpmn_diagram :=
    add_process_to_diagram bpmn_diagram process_id process_name in
  let bpmn_diagram :=
    fold_left (fun d activity =>
                 add_task_to_process d process_id activity activity)
              activities bpmn_diagram in
  let bpmn_diagram :=
    add_start_event_to_process bpmn_diagram process_id
      start_event_id start_event_name in
  let bpmn_diagram :=
    add_end_event_to_process bpmn_diagram process_id
      end_event_id end_event_name in
  if (len activities >? 0)%Z then
    first <- py_index activities 0 ;;
    let bpmn_diagram :=
      add_sequence_flow_to_process bpmn_diagram process_id
        start_event_id first in
    bpmn_diagram <-
      for_each (fun d i =>
                  a <- py_index activities i ;;
                  b <- py_index activities (i + 1) ;;
                  Ok (add_sequence_flow_to_process d process_id a b))
               bpmn_diagram (range (len activities - 1)) ;;
    last <- py_index activities (-1) ;;
    Ok (add_sequence_flow_to_process bpmn_diagram process_id
          last end_event_id)
  else Ok bpmn_diagram.

(** *** Reading a diagram as a graph *)

Definition node_ids (d : BPMNDiagram) : list pystr :=
  map node_id (flow_nodes d).

Definition edges (d : BPMNDiagram) : list (pystr * pystr) :=
  map (fun f => (source_ref f, target_ref f)) (sequence_flows d).

(** The edges along a sequence of nodes. *)
Fixpoint consecutive (p : list pystr) : list (pystr * pystr) :=
  match p with
  | a :: (b :: _) as t => (a, b) :: consecutive t
  | _ => []
  end.

(** The diagram is one simple path from [s] to [e]: its nodes can be
    lined up without repetition, [s] first and [e] last, so that its
    edges are exactly the steps of that line. *)
Definition simple_path (d : BPMNDiagram) (s e : pystr) : Prop :=
  exists p, NoDup p /\ hd_error p = Some s /\ last p s = e /\
            Permutation p (node_ids d) /\ edges d = consecutive p.

Definition task_node (activity : pystr) : flow_node :=
  {| node_process := process_id; node_kind := task;
     node_id := activity; node_name := activity |}.

Definition start_node : flow_node :=
  {| node_process := process_id; node_kind := startEvent;
     node_id := start_event_id; node_name := start_event_name |}.

Definition end_node : flow_node :=
  {| node_process := process_id; node_kind := endEvent;
     node_id := end_event_id; node_name := end_event_name |}.

Definition flow (st : pystr * pystr) : sequence_flow :=
  {| flow_process := process_id; source_ref := fst st;
     target_ref := snd st |}.

(** A diagram with further edges. *)
Definition add_flows (d : BPMNDiagram) (sts : list (pystr * pystr))
  : BPMNDiagram :=
  {| processes := processes d;
     flow_nodes := flow_nodes d;
     sequence_flows := sequence_flows d ++ map flow sts |}.

End Bpmn.

(** ** Tables *)

Module Pandas.

Inductive dtype : Type := dtype_str.

Section Frames.
Variable Cell : Type.

(** Modelled from the spec: pandas is a third-party package, not part of
    the repository.  A DataFrame is its column labels and its rows of
    cells; [rename(columns=mapper)] relabels the columns that the mapper
    names and leaves every other label and all the data as they are (the
    key-renaming projection of the spec). *)
Record DataFrame : Type := {
  columns : list pystr;
  values : list (list Cell)
}.

(** A dict literal with string keys, looked up by key. *)
Fixpoint dict_get {V} (d : list (pystr * V)) (key : pystr) : option V :=
  match d with
  | [] => None
  | (k, v) :: d' => if str_eqb k key then Some v else dict_get d' key
  end.

Definition rename_label (mapper : list (pystr * pystr)) (label : pystr)
  : pystr :=
  match dict_get mapper label with
  | Some label' => label'
  | None => label
  end.

Definition rename (mapper : list (pystr * pystr)) (df : DataFrame)
  : DataFrame :=
  {| columns := map (rename_label mapper) (columns df);
     values := values df |}.

(** The rows as records: each cell under the label of its column. *)
Definition to_records (df : DataFrame) : list (list (pystr * Cell)) :=
  map (fun row => combine (columns df) row) (values df).

(** A record with its keys renamed and its values untouched. *)
Definition rename_keys (mapper : list (pystr * pystr))
    (record : list (pystr * Cell)) : list (pystr * Cell) :=
  map (fun kv => (rename_label mapper (fst kv), snd kv)) record.

End Frames.

Arguments columns {Cell} d.
Arguments values {Cell} d.
Arguments rename {Cell} mapper df.
Arguments to_records {Cell} df.
Arguments rename_keys {Cell} mapper record.

(** [Series.unique()]: the distinct values in order of first appearance. *)
Fixpoint unique_from (seen l : list pystr) : list pystr :=
  match l with
  | [] => []
  | x :: l' =>
    if existsb (str_eqb x) seen then unique_from seen l'
    else x :: unique_from (x :: seen) l'
  end.

Definition unique (l : list pystr) : list pystr := unique_from [] l.

End Pandas.

(** ** The analyzer *)

Module Analyzer.
Import Pandas Bpmn Sankhya.

Notation "' pat <- m ;; k" :=
  (bind m (fun x => match x with pat => k end))
  (at level 61, pat pattern, m at next level, right associativity).

Section Libraries.

(** The third-party functions the script calls.  Each may raise. *)
Variable Cell : Type.
Variable EventLog : Type.
Variable Model : Type.
Variable Metric : Type.

(** [pd.read_csv(path, parse_dates=..., dtype=...)] *)
Variable read_csv :
  pystr -> list pystr -> list (pystr * dtype) -> result (DataFrame Cell).
(** [pm4py.convert.convert_to_event_log] *)
Variable convert_to_event_log : DataFrame Cell -> result EventLog.
(** The event records an event log holds. *)
Variable events : EventLog -> list (list (pystr * Cell)).
(** [event_log[key]]: the values of one attribute, as text. *)
Variable log_column : EventLog -> pystr -> result (list pystr).
(** [alpha_miner.apply] *)
Variable alpha_miner_apply : EventLog -> result Model.
(** [bottleneck_analysis.apply]: a dict from activity to its metrics. *)
Variable bottleneck_analysis_apply :
  EventLog -> result (list (pystr * list (pystr * Metric))).
(** How an f-string renders a metric value. *)
Variable format_metric : Metric -> pystr.
(** [BPMNDiagram.get_xml_as_string] *)
Variable get_xml_as_string : BPMNDiagram -> pystr.

(** The object: [self.log_path], [self.event_log]. *)
Record ProcessAnalyzer : Type := {
  log_path : pystr;
  event_log : option EventLog
}.

(** [ProcessAnalyzer.__init__] *)
Definition init (path : pystr) : ProcessAnalyzer :=
  {| log_path := path; event_log := None |}.

(** The renaming of lines 26-30. *)
Definition pm4py_columns : list (pystr * pystr) :=
  [ (lit "case_id", lit "case:concept:name");
    (lit "activity", lit "concept:name");
    (lit "timestamp", lit "time:timestamp") ].

Definition load_and_convert_log (self : ProcessAnalyzer)
  : result (EventLog * ProcessAnalyzer) :=
  dataframe <- read_csv (log_path self) [lit "timestamp"]
                 [(lit "case_id", dtype_str); (lit "activity", dtype_str)] ;;
  let dataframe := rename pm4py_columns dataframe in
  log <- convert_to_event_log dataframe ;;
  let self := {| log_path := log_path self; event_log := Some log |} in
  Ok (log, self).

(** [if self.event_log is None: self.load_and_convert_log()] *)
Definition loaded (self : ProcessAnalyzer)
  : result (EventLog * ProcessAnalyzer) :=
  match event_log self with
  | None => load_and_convert_log self
  | Some log => Ok (log, self)
  end.

Definition discover_process_model (self : ProcessAnalyzer)
  : result (Model * ProcessAnalyzer) :=
  '(log, self) <- loaded self ;;
  model <- alpha_miner_apply log ;;
  Ok (model, self).

(** [metrics.get(key, 'N/A')] inside the f-string. *)
Definition metric_text (metrics : list (pystr * Metric)) (key : pystr)
  : pystr :=
  match dict_get metrics key with
  | Some m => format_metric m
  | None => lit "N/A"
  end.

(** Lines 73-79: the description lines for a result of the analysis. *)
Definition bottleneck_lines
    (bottlenecks : list (pystr * list (pystr * Metric))) : list pystr :=
  let bottleneck_info := [] in
  match bottlenecks with
  | _ :: _ =>
    fold_left
      (fun bottleneck_info '(activity, metrics) =>
         bottleneck_info ++
         [lit "Atividade: " ++ activity
            ++ lit ", Tempo Médio de Espera: "
            ++ metric_text metrics (lit "avg_waiting_time")
            ++ lit ", Tempo Médio de Serviço: "
            ++ metric_text metrics (lit "avg_service_time")])
      bottlenecks bottleneck_info
  | [] =>
    bottleneck_info ++ [lit "Nenhum gargalo significativo identificado."]
  end.

Definition identify_bottlenecks (self : ProcessAnalyzer)
  : result (list pystr * ProcessAnalyzer) :=
  '(log, self) <- loaded self ;;
  bottlenecks <- bottleneck_analysis_apply log ;;
  Ok (bottleneck_lines bottlenecks, self).

(** Subscripting [self.event_log] when it is still [None] is a
    [TypeError]. *)
Definition generate_bpmn_xml_content (self : ProcessAnalyzer)
  : result pystr :=
  log <- match event_log self with
         | Some log => Ok log
         | None => Raise TypeError
         end ;;
  names <- log_column log (lit "concept:name") ;;
  let activities := unique names in
  bpmn_diagram <- build_bpmn_diagram activities ;;
  Ok (get_xml_as_string bpmn_diagram).

(** The script run as a program (lines 137-150): the text written to
    [sankhya_flow_script.js]. *)
Definition main : result pystr :=
  let analyzer := init (lit "sankhya_processed_data.csv") in
  '(log, analyzer) <- load_and_convert_log analyzer ;;
  '(model, analyzer) <- discover_process_model analyzer ;;
  '(bottlenecks, analyzer) <- identify_bottlenecks analyzer ;;
  sankhya_script <- generate_sankhya_flow_script bottlenecks ;;
  Ok sankhya_script.

End Libraries.
End Analyzer.

(** ** A small run

    Stand-ins for the third-party functions, used to run the analyzer on
    a two-row table. *)

Module Sample.
Import Pandas Bpmn Analyzer.

Definition frame : DataFrame pystr :=
  {| columns := [lit "case_id"; lit "activity"; lit "timestamp"];
     values := [ [lit "1"; lit "Receive Order"; lit "2024-01-01 09:00"];
                 [lit "1"; lit "Approve"; lit "2024-01-01 10:30"] ] |}.

Definition read_csv (path : pystr) (parse_dates : list pystr)
    (dtypes : list (pystr * dtype)) : result (DataFrame pystr) :=
  Ok frame.

(** An event log kept as the list of its event records. *)
Definition convert_to_event_log (df : DataFrame pystr)
  : result (list (list (pystr * pystr))) :=
  Ok (to_records df).

Definition events (log : list (list (pystr * pystr)))
  : list (list (pystr * pystr)) := log.

Definition log : list (list (pystr * pystr)) :=
  to_records (rename pm4py_columns frame).

Definition log_column (l : list (list (pystr * pystr))) (key : pystr)
  : result (list pystr) :=
  Ok (flat_map (fun record =>
                  match dict_get record key with
                  | Some v => [v]
                  | None => []
                  end) l).

Definition alpha_miner_apply (l : list (list (pystr * pystr)))
  : result unit := Ok tt.

Definition bottleneck_analysis_apply (l : list (list (pystr * pystr)))
  : result (list (pystr * list (pystr * pystr))) := Ok [].

Definition format_metric (m : pystr) : pystr := m.

Definition get_xml_as_string (d : BPMNDiagram) : pystr :=
  concat (map (fun n => lit "<" ++ node_id n ++ lit "/>") (flow_nodes d)).

Definition analyzer : ProcessAnalyzer (list (list (pystr * pystr))) :=
  init _ (lit "sankhya_processed_data.csv").

Definition loaded_analyzer : ProcessAnalyzer (list (list (pystr * pystr))) :=
  {| log_path := lit "sankhya_processed_data.csv"; event_log := Some log |}.

End Sample.

(** ** Conformance: [analyze_conformance] *)

Module Conformance.
Import Pandas Analyzer.

(** The [KeyError] of a dict subscript, carried as the general exception
    with the text Python prints for it. *)
Definition key_error (key : pystr) : exn :=
  LibraryError (lit "KeyError: '" ++ key ++ lit "'").

(** [d[key]] on a dict. *)
Definition subscript {V} (d : list (pystr * V)) (key : pystr) : result V :=
  match dict_get d key with
  | Some v => Ok v
  | None => Raise (key_error key)
  end.

Section Libraries.

Variable Cell : Type.
Variable EventLog : Type.
Variable Model : Type.
(** The values an alignment holds for its keys. *)
Variable Value : Type.

Variable read_csv :
  pystr -> list pystr -> list (pystr * dtype) -> result (DataFrame Cell).
Variable convert_to_event_log : DataFrame Cell -> result EventLog.
(** [alignments_factory.apply]: one dict per trace. *)
Variable alignments_apply :
  EventLog -> Model -> result (list (list (pystr * Value))).
(** The comparison [value == 1.0] on the library's numbers. *)
Variable is_one : Value -> bool.

(** Line 60: [sum(1 for trace in aligned_traces
                   if trace["fitness"] == 1.0)]. *)
Definition perfect_count (aligned_traces : list (list (pystr * Value)))
  : result Z :=
  for_each (fun total trace =>
              fitness <- subscript trace (lit "fitness") ;;
              Ok (if is_one fitness then (total + 1)%Z else total))
           0%Z aligned_traces.

(** Lines 52-62; [model] stands for the three arguments [net],
    [initial_marking], [final_marking].  The two counts are only
    printed. *)
Definition analyze_conformance (self : ProcessAnalyzer EventLog)
    (model : Model)
  : result (list (list (pystr * Value)) * ProcessAnalyzer EventLog) :=
  '(log, self) <- loaded Cell EventLog read_csv convert_to_event_log self ;;
  aligned_traces <- alignments_apply log model ;;
  let total := Bpmn.len aligned_traces in
  num_aligned <- perfect_count aligned_traces ;;
  Ok (aligned_traces, self).

End Libraries.

(** Reference predicates on one alignment. *)
Definition has_fitness {Value} (trace : list (pystr * Value)) : Prop :=
  dict_get trace (lit "fitness") <> None.

Definition lacks_fitness {Value} (trace : list (pystr * Value)) : Prop :=
  dict_get trace (lit "fitness") = None.

Definition perfect {Value} (is_one : Value -> bool)
    (trace : list (pystr * Value)) : bool :=
  match dict_get trace (lit "fitness") with
  | Some v => is_one v
  | None => false
  end.

End Conformance.

(** ** Reference texts for the properties of the report *)

Module Report.
Import Sankhya.

(** The characters that end a line of JavaScript source: LF, CR, LS, PS. *)
Definition line_terminator (c : N) : bool :=
  ((c =? 10) || (c =? 13) || (c =? 8232) || (c =? 8233))%N.

(** A text that holds no line terminator. *)
Definition single_line (s : pystr) : bool :=
  forallb (fun c => negb (line_terminator c)) s.

(** A line that is empty or a [//] comment. *)
Definition comment_or_blank (l : pystr) : bool :=
  match l with
  | [] => true
  | _ :: _ => startswith (lit "//") l
  end.

(** Lines, each followed by a newline. *)
Definition unlines (ls : list pystr) : pystr :=
  concat (map (fun l => l ++ nl) ls).

(** The lines of the block emitted for an activity name. *)
Definition template_lines (activity_name : pystr) : list pystr :=
  [ lit "// Exemplo de automação para a atividade '" ++ activity_name
      ++ lit "':";
    lit "// var query = getQuery();";
    lit "// query.nativeSelect(" ++ dquote
      ++ lit "SELECT * FROM TGFTAB WHERE DESCRICAO = \'" ++ activity_name
      ++ lit "\'" ++ dquote ++ lit ");";
    lit "// if (query.next()) { ";
    lit "//     mensagem = 'Atividade " ++ activity_name
      ++ lit " encontrada. Iniciando otimização...';";
    lit "//     // Adicione aqui a lógica de automação específica para a otimização desta atividade";
    lit "// } else { ";
    lit "//     mostraErro('Atividade " ++ activity_name
      ++ lit " não encontrada para otimização.');";
    lit "// }";
    [] ].

(** The lines one bottleneck line contributes. *)
Definition rendered_lines (bottleneck : pystr) : list pystr :=
  (lit "// " ++ bottleneck) ::
  match first_after marker bottleneck with
  | Some tail => template_lines (extracted_name tail)
  | None => []
  end.

Definition header_lines : list pystr :=
  [ lit "// Script de Automação Sankhya Flow gerado por IA"; [];
    lit "// Este script pode ser usado para automatizar otimizações de processos identificadas.";
    [] ].

(** The description [identify_bottlenecks] writes for one activity, given
    the two metric texts. *)
Definition description (activity waiting service : pystr) : pystr :=
  lit "Atividade: " ++ activity
    ++ lit ", Tempo Médio de Espera: " ++ waiting
    ++ lit ", Tempo Médio de Serviço: " ++ service.

(** The placeholder [identify_bottlenecks] returns when nothing is found. *)
Definition placeholder : pystr :=
  lit "Nenhum gargalo significativo identificado.".

(** The description of one item of the analysis. *)
Definition describe (Metric : Type) (format_metric : Metric -> pystr)
    (item : pystr * list (pystr * Metric)) : pystr :=
  description (fst item)
    (Analyzer.metric_text Metric format_metric (snd item)
       (lit "avg_waiting_time"))
    (Analyzer.metric_text Metric format_metric (snd item)
       (lit "avg_service_time")).

(** The report for a non-empty list of lines. *)
Definition report (lines : list pystr) : pystr :=
  header_block ++ found_heading ++ concat (map rendered lines)
    ++ footer_line.

(** A line of a script that does nothing: one line, blank or a comment. *)
Definition commented (l : pystr) : Prop :=
  single_line l = true /\ comment_or_blank l = true.

End Report.

(** ** More stand-ins for the small run *)

Module Scenario.
Import Pandas Bpmn Analyzer.

(** An analysis that reports one activity, with one of its two metrics. *)
Definition bottleneck_analysis_apply (l : list (list (pystr * pystr)))
  : result (list (pystr * list (pystr * pystr))) :=
  Ok [ (lit "Approve", [(lit "avg_waiting_time", lit "3.2")]) ].

Definition two_alignments : list (list (pystr * pystr)) :=
  [ [(lit "alignment", lit "..."); (lit "fitness", lit "1.0")];
    [(lit "alignment", lit "..."); (lit "fitness", lit "0.5")] ].

Definition alignments_apply (l : list (list (pystr * pystr))) (m : unit)
  : result (list (list (pystr * pystr))) :=
  Ok two_alignments.

Definition is_one (v : pystr) : bool := str_eqb v (lit "1.0").

(** A reader that finds no file. *)
Definition read_csv_missing (path : pystr) (parse_dates : list pystr)
    (dtypes : list (pystr * dtype)) : result (DataFrame pystr) :=
  Raise (LibraryError (lit "FileNotFoundError")).

End Scenario.

(** ** Facts about the string operations *)

Section StringFacts.

Lemma startswith_app (p t : pystr) : startswith p (p ++ t) = true.
Proof.
  induction p as [|a p IH]; simpl; [reflexivity|].
  now rewrite N.eqb_refl, IH.
Qed.

Lemma startswith_inv (p s : pystr) :
  startswith p s = true -> s = p ++ skipn (length p) s.
Proof.
  revert s; induction p as [|a p IH]; intros s H; [reflexivity|].
  destruct s as [|b s]; simpl in H; [discriminate|].
  apply andb_true_iff in H as [Hab Hp].
  apply N.eqb_eq in Hab; subst b.
  simpl. f_equal. now apply IH.
Qed.

Lemma startswith_length (p s : pystr) :
  startswith p s = true -> length p <= length s.
Proof.
  intros H. apply startswith_inv in H.
  rewrite H, length_app. lia.
Qed.

Lemma split_scan_skip (sep : pystr) (k : nat) :
  forall s cur, k <= length s ->
    split_scan sep s cur k = split_scan sep (skipn k s) cur 0.
Proof.
  induction k as [|k IH]; intros s cur Hk; [reflexivity|].
  destruct s as [|c s]; simpl in Hk; [lia|].
  simpl. apply IH. lia.
Qed.

(** [split] cuts at the first separator and goes on with what follows. *)
Lemma split_scan_first (sep : pystr) :
  sep <> [] ->
  forall s cur,
    split_scan sep s cur 0 =
    (rev cur ++ before sep s) ::
    match first_after sep s with
    | Some tail => split_scan sep tail [] 0
    | None => []
    end.
Proof.
  intros Hsep s; induction s as [|c s IH]; intros cur.
  - destruct sep as [|a sep]; [contradiction|].
    simpl. now rewrite app_nil_r.
  - cbn [split_scan before first_after].
    destruct (startswith sep (c :: s)) eqn:E.
    + rewrite app_nil_r. f_equal.
      pose proof (startswith_length _ _ E) as Hlen.
      destruct sep as [|a sep]; [contradiction|].
      simpl in Hlen.
      rewrite split_scan_skip by (simpl; lia).
      simpl. now rewrite Nat.sub_0_r.
    + rewrite IH. simpl. now rewrite <- app_assoc.
Qed.

Lemma isin_first_after (sep s : pystr) :
  isin sep s = true -> exists tail, first_after sep s = Some tail.
Proof.
  induction s as [|c s IH]; simpl; intros H.
  - rewrite orb_false_r in H. rewrite H. eauto.
  - destruct (startswith sep (c :: s)); [eauto|]. now apply IH.
Qed.

Lemma first_after_isin (sep s tail : pystr) :
  first_after sep s = Some tail -> isin sep s = true.
Proof.
  induction s as [|c s IH]; simpl; intros H.
  - destruct (startswith sep []); [reflexivity|discriminate].
  - destruct (startswith sep (c :: s)); [reflexivity|]. now apply IH.
Qed.

Lemma not_isin_first_after (sep s : pystr) :
  isin sep s = false -> first_after sep s = None.
Proof.
  intros H. destruct (first_after sep s) eqn:E; [|reflexivity].
  apply first_after_isin in E. congruence.
Qed.

(** The first occurrence splits the text in three. *)
Lemma first_after_decompose (sep s tail : pystr) :
  first_after sep s = Some tail -> s = before sep s ++ sep ++ tail.
Proof.
  induction s as [|c s IH]; simpl; intros H.
  - destruct sep; simpl in H; [now inversion H|discriminate].
  - destruct (startswith sep (c :: s)) eqn:E.
    + inversion H; subst. simpl. now apply startswith_inv.
    + simpl. f_equal. now apply IH.
Qed.

Lemma before_not_isin (sep s : pystr) :
  isin sep s = false -> before sep s = s.
Proof.
  induction s as [|c s IH]; simpl; intros H; [reflexivity|].
  apply orb_false_iff in H as [H1 H2].
  rewrite H1. f_equal. now apply IH.
Qed.

Lemma startswith_isin (sub s : pystr) :
  startswith sub s = true -> isin sub s = true.
Proof. intros H. destruct s; simpl; simpl in H; now rewrite H. Qed.

(** [isin] decides [substring]. *)
Lemma isin_substring (sub s : pystr) :
  isin sub s = true <-> substring sub s.
Proof.
  split.
  - intros H. destruct (isin_first_after _ _ H) as [tail E].
    exists (before sub s), tail. now apply first_after_decompose.
  - intros (a & b & ->). induction a as [|c a IH].
    + change ([] ++ sub ++ b) with (sub ++ b).
      apply startswith_isin, startswith_app.
    + simpl. simpl in IH. rewrite IH. apply orb_true_r.
Qed.

Lemma substring_app_l (sub s t : pystr) :
  substring sub s -> substring sub (s ++ t).
Proof.
  intros (a & b & ->). exists a, (b ++ t). now rewrite <- !app_assoc.
Qed.

Lemma substring_app_r (sub s t : pystr) :
  substring sub s -> substring sub (t ++ s).
Proof.
  intros (a & b & ->). exists (t ++ a), b. now rewrite <- !app_assoc.
Qed.

Lemma substring_refl (s : pystr) : substring s s.
Proof. exists [], []. now rewrite app_nil_r. Qed.

Lemma py_index_nat {A} (l : list A) (i : nat) (x : A) :
  nth_error l i = Some x -> py_index l (Z.of_nat i) = Ok x.
Proof.
  intros H. unfold py_index.
  assert (Hi : i < length l) by (apply nth_error_Some; congruence).
  destruct (Z.ltb_spec (Z.of_nat i) 0); [lia|].
  destruct (Z.leb_spec 0 (Z.of_nat i)); [|lia].
  destruct (Z.ltb_spec (Z.of_nat i) (Z.of_nat (length l))); [|lia].
  simpl. now rewrite Nat2Z.id, H.
Qed.

Lemma py_index_last {A} (l : list A) (x : A) :
  py_index (l ++ [x]) (-1) = Ok x.
Proof.
  unfold py_index. rewrite length_app. simpl length.
  replace (Z.of_nat (length l + 1)) with (Z.of_nat (length l) + 1)%Z by lia.
  change (-1 <? 0)%Z with true. cbv iota.
  replace (-1 + (Z.of_nat (length l) + 1))%Z with (Z.of_nat (length l)) by lia.
  destruct (Z.leb_spec 0 (Z.of_nat (length l))); [|lia].
  destruct (Z.ltb_spec (Z.of_nat (length l)) (Z.of_nat (length l) + 1)); [|lia].
  simpl. rewrite Nat2Z.id.
  rewrite nth_error_app2 by lia. now rewrite Nat.sub_diag.
Qed.

End StringFacts.

(** ** The report templater, line by line *)

Section SankhyaFacts.
Import Sankhya.

Lemma marker_nonempty : marker <> [].
Proof. vm_compute. discriminate. Qed.

Lemma comma_nonempty : comma <> [].
Proof. vm_compute. discriminate. Qed.

Lemma split_nonempty (sep s : pystr) :
  sep <> [] -> split sep s = Ok (split_scan sep s [] 0).
Proof. intros H. destruct sep; [contradiction|reflexivity]. Qed.

(** [bottleneck.split("Atividade: ")[1]] is the text after the first
    marker, up to the next marker. *)
Lemma split_marker_second (bottleneck tail : pystr) :
  first_after marker bottleneck = Some tail ->
  exists parts, split marker bottleneck = Ok parts /\
                py_index parts 1 = Ok (before marker tail).
Proof.
  intros H. rewrite (split_nonempty _ _ marker_nonempty).
  eexists; split; [reflexivity|].
  rewrite (split_scan_first _ marker_nonempty), H.
  rewrite (split_scan_first _ marker_nonempty tail).
  now apply (py_index_nat _ 1).
Qed.

(** [tail.split(",")[0]] is the text before the first comma. *)
Lemma split_comma_first (tail : pystr) :
  exists fields, split comma tail = Ok fields /\
                 py_index fields 0 = Ok (before comma tail).
Proof.
  rewrite (split_nonempty _ _ comma_nonempty).
  eexists; split; [reflexivity|].
  rewrite (split_scan_first _ comma_nonempty).
  now apply (py_index_nat _ 0).
Qed.

Lemma render_bottleneck_rendered (script_content bottleneck : pystr) :
  render_bottleneck script_content bottleneck =
  Ok (script_content ++ rendered bottleneck).
Proof.
  unfold render_bottleneck, rendered.
  change (lit "Atividade: ") with marker.
  change (lit ",") with comma.
  destruct (isin marker bottleneck) eqn:E.
  - destruct (isin_first_after _ _ E) as [tail Ht]. rewrite Ht.
    destruct (split_marker_second _ _ Ht) as (parts & -> & Hp).
    cbn [bind]. rewrite Hp. cbn [bind].
    destruct (split_comma_first (before marker tail)) as (fields & -> & Hf).
    cbn [bind]. rewrite Hf. cbn [bind].
    unfold activity_template, query_line, branch_line, error_line,
      comment_line, extracted_name.
    f_equal. now rewrite <- !app_assoc.
  - rewrite (not_isin_first_after _ _ E).
    unfold comment_line. now rewrite app_nil_r.
Qed.

Lemma for_each_render (bottlenecks : list pystr) :
  forall script_content,
    for_each render_bottleneck script_content bottlenecks =
    Ok (script_content ++ concat (map rendered bottlenecks)).
Proof.
  induction bottlenecks as [|b bs IH]; intros sc; simpl.
  - now rewrite app_nil_r.
  - rewrite render_bottleneck_rendered. cbn [bind].
    rewrite IH. now rewrite <- app_assoc.
Qed.

(** The report as one concatenation. *)
Lemma generate_sankhya_flow_script_eq (bottlenecks : list pystr) :
  generate_sankhya_flow_script bottlenecks =
  Ok (header_block ++
      match bottlenecks with
      | [] => no_bottleneck_line
      | _ :: _ => found_heading ++ concat (map rendered bottlenecks)
      end ++ footer_line).
Proof.
  unfold generate_sankhya_flow_script, header_block, header_line,
    no_bottleneck_line, found_heading, footer_line.
  destruct bottlenecks as [|b bs].
  - cbn [bind]. now rewrite <- !app_assoc.
  - rewrite for_each_render. cbn [bind]. now rewrite <- !app_assoc.
Qed.

Lemma rendered_substring (bottleneck : pystr) (bottlenecks : list pystr) :
  In bottleneck bottlenecks ->
  substring (rendered bottleneck) (concat (map rendered bottlenecks)).
Proof.
  induction bottlenecks as [|b bs IH]; intros H; [contradiction|].
  cbn [map concat]. destruct H as [->|H].
  - apply substring_app_l, substring_refl.
  - now apply substring_app_r, IH.
Qed.

Lemma rendered_in_script (bottleneck : pystr) (bottlenecks : list pystr) :
  In bottleneck bottlenecks ->
  exists script, generate_sankhya_flow_script bottlenecks = Ok script /\
                 substring (rendered bottleneck) script.
Proof.
  intros H. rewrite generate_sankhya_flow_script_eq.
  eexists; split; [reflexivity|].
  destruct bottlenecks as [|b bs]; [contradiction|].
  apply substring_app_r, substring_app_l, substring_app_r.
  now apply rendered_substring.
Qed.

End SankhyaFacts.

(** ** The diagram in closed form *)

Section BpmnFacts.
Import Bpmn.

Lemma add_tasks_eq (activities : list pystr) :
  forall d,
    fold_left (fun d activity =>
                 add_task_to_process d process_id activity activity)
              activities d =
    {| processes := processes d;
       flow_nodes := flow_nodes d ++ map task_node activities;
       sequence_flows := sequence_flows d |}.
Proof.
  induction activities as [|a l IH]; intros d; simpl.
  - rewrite app_nil_r. now destruct d.
  - rewrite IH. simpl. now rewrite <- app_assoc.
Qed.

(** The loop [for i in range(len(activities) - 1)]: every index it uses
    is in range, and it adds the edge from each activity to the next. *)
Lemma flow_loop (activities : list pystr) :
  forall k a d,
    a + k < length activities ->
    for_each (fun d i =>
                x <- py_index activities i ;;
                y <- py_index activities (i + 1) ;;
                Ok (add_sequence_flow_to_process d process_id x y))
             d (map Z.of_nat (seq a k)) =
    Ok (add_flows d (map (fun i => (nth i activities [],
                                    nth (S i) activities []))
                         (seq a k))).
Proof.
  induction k as [|k IH]; intros a d H; simpl.
  - unfold add_flows. simpl. rewrite app_nil_r. now destruct d.
  - rewrite (py_index_nat activities a (nth a activities []))
      by (apply nth_error_nth'; lia).
    cbn [bind].
    replace (Z.of_nat a + 1)%Z with (Z.of_nat (S a)) by lia.
    rewrite (py_index_nat activities (S a) (nth (S a) activities []))
      by (apply nth_error_nth'; lia).
    cbn [bind]. rewrite IH by lia.
    unfold add_flows, add_sequence_flow_to_process. simpl.
    now rewrite <- app_assoc.
Qed.

Lemma pairs_consecutive (activities : list pystr) :
  map (fun i => (nth i activities [], nth (S i) activities []))
      (seq 0 (length activities - 1)) = consecutive activities.
Proof.
  induction activities as [|x t IH]; [reflexivity|].
  destruct t as [|y t']; [reflexivity|].
  replace (length (x :: y :: t') - 1) with (S (length (y :: t') - 1))
    by (simpl; lia).
  rewrite <- cons_seq, <- seq_shift.
  cbn [map]. rewrite map_map.
  change (consecutive (x :: y :: t')) with ((x, y) :: consecutive (y :: t')).
  f_equal. exact IH.
Qed.

Lemma consecutive_cons (a b : pystr) (t : list pystr) :
  consecutive (a :: b :: t) = (a, b) :: consecutive (b :: t).
Proof. reflexivity. Qed.

Lemma consecutive_snoc (l : list pystr) (x e : pystr) :
  consecutive ((l ++ [x]) ++ [e]) = consecutive (l ++ [x]) ++ [(x, e)].
Proof.
  induction l as [|a l IH]; [reflexivity|].
  destruct l as [|b l]; [reflexivity|].
  change (consecutive (a :: ((b :: l) ++ [x]) ++ [e])
          = consecutive (a :: (b :: l) ++ [x]) ++ [(x, e)]).
  change ((a, b) :: consecutive (((b :: l) ++ [x]) ++ [e])
          = ((a, b) :: consecutive ((b :: l) ++ [x])) ++ [(x, e)]).
  now rewrite IH.
Qed.

Lemma consecutive_length (p : list pystr) :
  length (consecutive p) = length p - 1.
Proof.
  induction p as [|a p IH]; [reflexivity|].
  destruct p as [|b p]; [reflexivity|].
  change (S (length (consecutive (b :: p))) = length (a :: b :: p) - 1).
  rewrite IH. simpl. lia.
Qed.

(** The nodes and edges [build_bpmn_diagram] produces, for every array of
    activities: it never raises. *)
Lemma build_bpmn_diagram_eq (activities : list pystr) :
  build_bpmn_diagram activities =
  Ok {| processes := [(process_id, process_name)];
        flow_nodes := map task_node activities ++ [start_node; end_node];
        sequence_flows :=
          map flow
            match activities with
            | [] => []
            | _ :: _ =>
              consecutive (start_event_id :: activities ++ [end_event_id])
            end |}.
Proof.
  unfold build_bpmn_diagram. rewrite add_tasks_eq.
  destruct activities as [|a0 t]; [reflexivity|].
  replace (len (a0 :: t) >? 0)%Z with true
    by (unfold len; simpl length; symmetry; apply Z.gtb_lt; lia).
  change (py_index (a0 :: t) 0) with (py_index (a0 :: t) (Z.of_nat 0)).
  rewrite (py_index_nat (a0 :: t) 0 a0) by reflexivity.
  cbn [bind]. unfold range, len.
  replace (Z.to_nat (Z.of_nat (length (a0 :: t)) - 1))
    with (length (a0 :: t) - 1) by lia.
  rewrite flow_loop by (simpl; lia).
  cbn [bind]. rewrite pairs_consecutive.
  destruct (exists_last (l := a0 :: t)) as (l & x & E); [discriminate|].
  rewrite E, py_index_last. cbn [bind].
  unfold add_flows, add_sequence_flow_to_process, add_end_event_to_process,
    add_start_event_to_process, add_flow_node, add_process_to_diagram,
    new_diagram. cbn [processes flow_nodes sequence_flows app].
  f_equal. f_equal.
  - rewrite <- E. now rewrite <- app_assoc.
  - rewrite <- E at 1. destruct l as [|b l]; simpl in E; inversion E; subst.
    + reflexivity.
    + change (start_event_id :: ((b :: l) ++ [x]) ++ [end_event_id])
        with (start_event_id :: b :: (l ++ [x]) ++ [end_event_id]).
      rewrite consecutive_cons.
      change (b :: (l ++ [x]) ++ [end_event_id])
        with (((b :: l) ++ [x]) ++ [end_event_id]).
      rewrite consecutive_snoc. cbn [map]. rewrite map_app. reflexivity.
Qed.

End BpmnFacts.


(** ** The report templater: the properties *)

Section SankhyaProperties.
Import Sankhya.

Lemma substring_trans (a b c : pystr) :
  substring a b -> substring b c -> substring a c.
Proof.
  intros (x & y & ->) (u & v & ->).
  exists (u ++ x), (y ++ v). now rewrite <- !app_assoc.
Qed.

Lemma template_has_query (activity_name : pystr) :
  substring (query_line activity_name) (activity_template activity_name).
Proof.
  unfold activity_template.
  exists (lit "// Exemplo de automação para a atividade '" ++ activity_name
            ++ lit "':" ++ nl ++ lit "// var query = getQuery();" ++ nl).
  eexists. rewrite <- !app_assoc. reflexivity.
Qed.

Lemma template_has_branch (activity_name : pystr) :
  substring (branch_line activity_name) (activity_template activity_name).
Proof.
  unfold activity_template.
  exists (lit "// Exemplo de automação para a atividade '" ++ activity_name
            ++ lit "':" ++ nl ++ lit "// var query = getQuery();" ++ nl
            ++ query_line activity_name).
  eexists. rewrite <- !app_assoc. reflexivity.
Qed.

Lemma template_has_error (activity_name : pystr) :
  substring (error_line activity_name) (activity_template activity_name).
Proof.
  unfold activity_template.
  exists (lit "// Exemplo de automação para a atividade '" ++ activity_name
            ++ lit "':" ++ nl ++ lit "// var query = getQuery();" ++ nl
            ++ query_line activity_name ++ branch_line activity_name
            ++ lit "//     // Adicione aqui a lógica de automação específica para a otimização desta atividade" ++ nl
            ++ lit "// } else { " ++ nl).
  eexists. rewrite <- !app_assoc. reflexivity.
Qed.

Lemma before_prefix (sep s : pystr) : exists r, s = before sep s ++ r.
Proof.
  induction s as [|c s [r IH]]; [now exists []|].
  simpl. destruct (startswith sep (c :: s)).
  - now exists (c :: s).
  - exists r. simpl. now f_equal.
Qed.

Lemma not_isin_before (sub sep s : pystr) :
  isin sub s = false -> isin sub (before sep s) = false.
Proof.
  intros H. destruct (isin sub (before sep s)) eqn:E; [|reflexivity].
  apply isin_substring in E.
  destruct (before_prefix sep s) as [r Hr].
  assert (Hs : substring sub s)
    by (rewrite Hr; now apply substring_app_l).
  apply isin_substring in Hs. congruence.
Qed.

(** C1, as stated, fails: a line carrying the English marker
    "Activity: " is copied as a comment and gets no template, so the
    report for the spec's example line has no query line at all. *)
Lemma english_marker_gets_no_template :
  let line := lit "Activity: Approve, Avg Wait: 3.2, Avg Service: 1.1" in
  isin (lit "Activity: ") line = true /\
  generate_sankhya_flow_script [line] =
    Ok (header_block ++ found_heading ++ comment_line line ++ footer_line) /\
  isin (lit "query.nativeSelect")
       (header_block ++ found_heading ++ comment_line line ++ footer_line)
    = false /\
  ~ substring (query_line (lit "Approve"))
      (header_block ++ found_heading ++ comment_line line ++ footer_line).
Proof.
  cbv zeta. split; [vm_compute; reflexivity|].
  split; [vm_compute; reflexivity|].
  split; [vm_compute; reflexivity|].
  intros H. apply isin_substring in H. vm_compute in H. discriminate.
Qed.

(** C1, amended: the marker is the literal "Atividade: ".  For every
    line of the input that contains it, the report holds the line as a
    comment followed by the template, whose query, conditional and
    error-reporting lines carry the activity name; the name is the text
    after the first marker, cut at the next marker and at the next
    comma, and stripped of surrounding whitespace. *)
Theorem marker_line_gets_template
    (bottlenecks : list pystr) (bottleneck : pystr) :
  In bottleneck bottlenecks ->
  isin (lit "Atividade: ") bottleneck = true ->
  exists tail script,
    bottleneck = before marker bottleneck ++ marker ++ tail /\
    first_after marker bottleneck = Some tail /\
    let activity_name := strip (before comma (before marker tail)) in
    generate_sankhya_flow_script bottlenecks = Ok script /\
    substring (comment_line bottleneck ++ activity_template activity_name)
              script /\
    substring (query_line activity_name) script /\
    substring (branch_line activity_name) script /\
    substring (error_line activity_name) script.
Proof.
  intros Hin Hm.
  destruct (isin_first_after _ _ Hm) as [tail Ht].
  destruct (rendered_in_script _ _ Hin) as (script & Hs & Hsub).
  exists tail, script.
  split; [now apply first_after_decompose|].
  split; [exact Ht|]. cbv zeta.
  split; [exact Hs|].
  unfold rendered in Hsub. fold marker in Ht. rewrite Ht in Hsub.
  fold (extracted_name tail).
  assert (Ht' : substring (activity_template (extracted_name tail)) script)
    by (eapply substring_trans; [|exact Hsub];
        apply substring_app_r, substring_refl).
  repeat split.
  - exact Hsub.
  - eapply substring_trans; [apply template_has_query|exact Ht'].
  - eapply substring_trans; [apply template_has_branch|exact Ht'].
  - eapply substring_trans; [apply template_has_error|exact Ht'].
Qed.

Lemma marker_line_gets_template_witness :
  exists script,
    generate_sankhya_flow_script [approve_line] = Ok script /\
    substring (query_line (lit "Approve")) script.
Proof.
  destruct (marker_line_gets_template [approve_line] approve_line)
    as (tail & script & _ & Ht & Hs & _ & Hq & _).
  - left; reflexivity.
  - vm_compute; reflexivity.
  - exists script. split; [exact Hs|].
    assert (Hn : strip (before comma (before marker tail)) = lit "Approve").
    { vm_compute in Ht. inversion Ht. vm_compute. reflexivity. }
    rewrite Hn in Hq. exact Hq.
Defined.

(** C6: for every list of lines the report is produced, begins with the
    header line and ends with the footer line. *)
Theorem report_framing (bottlenecks : list pystr) :
  exists script middle,
    generate_sankhya_flow_script bottlenecks = Ok script /\
    script = header_line ++ middle ++ footer_line.
Proof.
  rewrite generate_sankhya_flow_script_eq.
  set (body := match bottlenecks with
               | [] => no_bottleneck_line
               | _ :: _ => found_heading ++ concat (map rendered bottlenecks)
               end).
  exists (header_block ++ body ++ footer_line).
  exists ((nl ++ lit "// Este script pode ser usado para automatizar otimizações de processos identificadas." ++ nl ++ nl) ++ body).
  split; [reflexivity|].
  unfold header_block. now rewrite <- !app_assoc.
Qed.

(** C7: for the empty list the report is the header block, the single
    line saying that no bottleneck was identified, and the footer. *)
Theorem empty_report :
  generate_sankhya_flow_script [] =
  Ok (header_block ++ no_bottleneck_line ++ footer_line) /\
  no_bottleneck_line =
    lit "// Nenhum gargalo significativo identificado para gerar automações."
      ++ nl.
Proof. split; [apply generate_sankhya_flow_script_eq|reflexivity]. Qed.

(** C8, as stated, fails: with no comma after the marker the name is not
    the raw remainder of the line.  The remainder "Approve " (with its
    trailing blank) yields the name "Approve". *)
Lemma trailing_blank_is_stripped :
  let line := lit "Atividade: Approve " in
  first_after marker line = Some (lit "Approve ") /\
  isin comma (lit "Approve ") = false /\
  generate_sankhya_flow_script [line] =
    Ok (header_block ++ found_heading ++ comment_line line
          ++ activity_template (lit "Approve") ++ footer_line) /\
  generate_sankhya_flow_script [line] <>
    Ok (header_block ++ found_heading ++ comment_line line
          ++ activity_template (lit "Approve ") ++ footer_line).
Proof.
  cbv zeta. split; [vm_compute; reflexivity|].
  split; [vm_compute; reflexivity|].
  split; [vm_compute; reflexivity|].
  vm_compute. intros H. discriminate H.
Qed.

(** C8, amended: a line with the marker and no comma after it does not
    stop the run.  The report is complete (header, heading, every line
    rendered, footer); the name is the text after the first marker, cut
    at a further marker if there is one, with the surrounding whitespace
    stripped.  Nothing is raised and no warning is recorded: the result
    is only the report. *)
Theorem marker_without_comma
    (bottlenecks : list pystr) (bottleneck tail : pystr) :
  In bottleneck bottlenecks ->
  first_after marker bottleneck = Some tail ->
  isin comma tail = false ->
  generate_sankhya_flow_script bottlenecks =
    Ok (header_block ++ found_heading ++ concat (map rendered bottlenecks)
          ++ footer_line) /\
  rendered bottleneck =
    comment_line bottleneck ++ activity_template (strip (before marker tail)) /\
  (isin marker tail = false ->
   rendered bottleneck =
     comment_line bottleneck ++ activity_template (strip tail)).
Proof.
  intros Hin Ht Hc.
  assert (Hr : rendered bottleneck =
               comment_line bottleneck
                 ++ activity_template (strip (before marker tail))).
  { unfold rendered, extracted_name. rewrite Ht.
    now rewrite (before_not_isin comma) by now apply not_isin_before. }
  split; [|split].
  - rewrite generate_sankhya_flow_script_eq.
    destruct bottlenecks; [contradiction|reflexivity].
  - exact Hr.
  - intros Hm. now rewrite Hr, (before_not_isin marker).
Qed.

Lemma marker_without_comma_witness :
  generate_sankhya_flow_script [lit "Atividade: Approve "] =
    Ok (header_block ++ found_heading
          ++ concat (map rendered [lit "Atividade: Approve "])
          ++ footer_line).
Proof.
  apply (marker_without_comma [lit "Atividade: Approve "]
           (lit "Atividade: Approve ") (lit "Approve ")).
  - left; reflexivity.
  - vm_compute; reflexivity.
  - vm_compute; reflexivity.
Defined.

End SankhyaProperties.

(** ** The linear flow synthesizer: the properties *)

Section BpmnProperties.
Import Bpmn Pandas.

Lemma start_end_distinct : start_event_id <> end_event_id.
Proof. vm_compute. discriminate. Qed.

Lemma node_ids_tasks (activities : list pystr) :
  map node_id (map task_node activities) = activities.
Proof. rewrite map_map. simpl. apply map_id. Qed.

Lemma edges_flows (sts : list (pystr * pystr)) :
  map (fun f => (source_ref f, target_ref f)) (map flow sts) = sts.
Proof.
  rewrite map_map. simpl.
  induction sts as [|[a b] l IH]; [reflexivity|].
  simpl. now rewrite IH.
Qed.

Lemma str_eqb_eq (a b : pystr) : str_eqb a b = true <-> a = b.
Proof.
  unfold str_eqb. destruct (list_eq_dec N.eq_dec a b); split;
    congruence.
Qed.

Lemma seen_false (x : pystr) (seen : list pystr) :
  ~ In x seen -> existsb (str_eqb x) seen = false.
Proof.
  intros H. destruct (existsb (str_eqb x) seen) eqn:E; [|reflexivity].
  apply existsb_exists in E as (y & Hy & Hxy).
  apply str_eqb_eq in Hxy. subst y. contradiction.
Qed.

Lemma unique_from_distinct (l : list pystr) :
  forall seen,
    NoDup l -> (forall x, In x l -> ~ In x seen) ->
    unique_from seen l = l.
Proof.
  induction l as [|a l IH]; intros seen Hnd Hs; [reflexivity|].
  inversion Hnd as [|? ? Ha Hl]; subst. simpl.
  rewrite seen_false by (apply Hs; now left).
  f_equal. apply IH; [exact Hl|].
  intros x Hx [->|Hin]; [contradiction|].
  apply (Hs x); [now right|exact Hin].
Qed.

(** On labels that are already distinct, [unique] changes nothing. *)
Lemma unique_distinct (l : list pystr) : NoDup l -> unique l = l.
Proof. intros H. apply unique_from_distinct; [exact H|]. intros x _ []. Qed.

Lemma unique_from_spec (l : list pystr) :
  forall seen x, In x (unique_from seen l) -> In x l /\ ~ In x seen.
Proof.
  induction l as [|a l IH]; intros seen x H; [contradiction|].
  simpl in H. destruct (existsb (str_eqb a) seen) eqn:E.
  - destruct (IH _ _ H). split; [now right|assumption].
  - destruct H as [->|H].
    + split; [now left|]. intros Hin.
      assert (existsb (str_eqb x) seen = true); [|congruence].
      apply existsb_exists. exists x. split; [exact Hin|].
      now apply str_eqb_eq.
    + destruct (IH _ _ H) as [H1 H2]. split; [now right|].
      intros Hin. apply H2. now right.
Qed.

Lemma unique_from_NoDup (l : list pystr) :
  forall seen, NoDup (unique_from seen l).
Proof.
  induction l as [|a l IH]; intros seen; [constructor|].
  simpl. destruct (existsb (str_eqb a) seen); [apply IH|].
  constructor; [|apply IH].
  intros H. apply unique_from_spec in H as [_ H]. apply H. now left.
Qed.

(** The labels the code hands to the synthesizer are distinct. *)
Lemma unique_NoDup (l : list pystr) : NoDup (unique l).
Proof. apply unique_from_NoDup. Qed.

(** C2, as stated, fails: the one-element sequence whose label is the id
    the code gives to the start event makes the first edge a loop on that
    id, so the edges are not a simple path. *)
Lemma reserved_id_breaks_simple_path :
  let activities := [lit "StartEvent_1"] in
  activities <> [] /\ NoDup activities /\
  exists d,
    build_bpmn_diagram activities = Ok d /\
    node_ids d = [lit "StartEvent_1"; lit "StartEvent_1"; lit "EndEvent_1"] /\
    edges d = [(lit "StartEvent_1", lit "StartEvent_1");
               (lit "StartEvent_1", lit "EndEvent_1")] /\
    ~ simple_path d start_event_id end_event_id.
Proof.
  cbv zeta. split; [discriminate|].
  split; [constructor; [intros []|constructor]|].
  rewrite build_bpmn_diagram_eq. eexists. split; [reflexivity|].
  split; [reflexivity|]. split; [reflexivity|].
  intros (p & Hnd & _ & _ & _ & He).
  destruct p as [|a [|b [|c [|e q]]]]; try discriminate He.
  change (consecutive [a; b; c]) with [(a, b); (b, c)] in He.
  inversion He; subst.
  inversion Hnd as [|? ? Hn _]; subst. apply Hn. now left.
Qed.

(** C2, amended: for every non-empty sequence of n distinct activity
    labels, none of which is one of the ids "StartEvent_1" and
    "EndEvent_1" that the code gives to its two events, the diagram has
    n+2 nodes (one task per activity in the given order, the start and
    the end event) and n+1 edges, the steps of the line Start, the
    activities in order, End; they form one simple path from Start to
    End. *)
Theorem linear_flow_is_simple_path (activities : list pystr) :
  activities <> [] ->
  NoDup activities ->
  ~ In start_event_id activities ->
  ~ In end_event_id activities ->
  exists d,
    build_bpmn_diagram activities = Ok d /\
    flow_nodes d = map task_node activities ++ [start_node; end_node] /\
    length (flow_nodes d) = length activities + 2 /\
    length (sequence_flows d) = length activities + 1 /\
    edges d = consecutive (start_event_id :: activities ++ [end_event_id]) /\
    simple_path d start_event_id end_event_id.
Proof.
  intros Hne Hnd Hs He.
  rewrite build_bpmn_diagram_eq. eexists. split; [reflexivity|].
  destruct activities as [|a0 t]; [contradiction|].
  set (acts := a0 :: t) in *.
  assert (Hedges :
    map (fun f => (source_ref f, target_ref f))
        (map flow (consecutive (start_event_id :: acts ++ [end_event_id])))
    = consecutive (start_event_id :: acts ++ [end_event_id]))
    by apply edges_flows.
  split; [reflexivity|].
  split; [cbn [flow_nodes]; rewrite length_app, length_map; simpl; lia|].
  split.
  { cbn [sequence_flows]. rewrite length_map, consecutive_length.
    simpl. rewrite length_app. simpl. lia. }
  split; [exact Hedges|].
  exists (start_event_id :: acts ++ [end_event_id]).
  split.
  { constructor.
    - intros H. apply in_app_or in H as [H|[H|[]]]; [contradiction|].
      now apply start_end_distinct.
    - apply NoDup_app; [exact Hnd|repeat constructor; intros []|].
      intros x Hx [<-|[]]. contradiction. }
  split; [reflexivity|].
  split; [apply (last_last (start_event_id :: acts))|].
  split; [|exact Hedges].
  unfold node_ids. cbn [flow_nodes]. rewrite map_app, node_ids_tasks.
  cbn [map node_id start_node end_node].
  change (start_event_id :: acts ++ [end_event_id])
    with ([start_event_id] ++ acts ++ [end_event_id]).
  change [start_event_id; end_event_id]
    with ([start_event_id] ++ [end_event_id]).
  rewrite !app_assoc. apply Permutation_app_tail.
  apply Permutation_app_comm.
Qed.

(** The scenario of the spec: three activities, five nodes, four edges. *)
Lemma linear_flow_is_simple_path_witness :
  exists d,
    build_bpmn_diagram [lit "Receive Order"; lit "Approve"; lit "Ship"]
      = Ok d /\
    length (flow_nodes d) = 5 /\
    length (sequence_flows d) = 4 /\
    edges d = [ (start_event_id, lit "Receive Order");
                (lit "Receive Order", lit "Approve");
                (lit "Approve", lit "Ship");
                (lit "Ship", end_event_id) ].
Proof.
  destruct (linear_flow_is_simple_path
              [lit "Receive Order"; lit "Approve"; lit "Ship"])
    as (d & Hd & _ & Hn & Hf & He & _).
  - discriminate.
  - repeat constructor; vm_compute; intuition discriminate.
  - vm_compute; intuition discriminate.
  - vm_compute; intuition discriminate.
  - exists d. repeat split; assumption.
Defined.

(** C5: for the empty sequence the diagram has the two nodes Start and
    End and no edge. *)
Theorem empty_flow :
  exists d,
    build_bpmn_diagram [] = Ok d /\
    flow_nodes d = [start_node; end_node] /\
    node_ids d = [start_event_id; end_event_id] /\
    length (flow_nodes d) = 2 /\
    sequence_flows d = [] /\
    edges d = [].
Proof.
  rewrite build_bpmn_diagram_eq. eexists. split; [reflexivity|].
  repeat split.
Qed.

End BpmnProperties.

(** ** The analyzer: the properties *)

Section AnalyzerProperties.
Import Pandas Bpmn Sankhya Analyzer.

Variable Cell : Type.
Variable EventLog : Type.
Variable Model : Type.
Variable Metric : Type.
Variable read_csv :
  pystr -> list pystr -> list (pystr * dtype) -> result (DataFrame Cell).
Variable convert_to_event_log : DataFrame Cell -> result EventLog.
Variable events : EventLog -> list (list (pystr * Cell)).
Variable log_column : EventLog -> pystr -> result (list pystr).
Variable alpha_miner_apply : EventLog -> result Model.
Variable bottleneck_analysis_apply :
  EventLog -> result (list (pystr * list (pystr * Metric))).
Variable format_metric : Metric -> pystr.
Variable get_xml_as_string : BPMNDiagram -> pystr.

Local Abbreviation analyzer := (ProcessAnalyzer EventLog).
Local Abbreviation load_and_convert_log :=
  (load_and_convert_log Cell EventLog read_csv convert_to_event_log).
Local Abbreviation loaded :=
  (loaded Cell EventLog read_csv convert_to_event_log).
Local Abbreviation discover_process_model :=
  (discover_process_model Cell EventLog Model read_csv convert_to_event_log
     alpha_miner_apply).
Local Abbreviation bottleneck_lines := (bottleneck_lines Metric format_metric).
Local Abbreviation identify_bottlenecks :=
  (identify_bottlenecks Cell EventLog Metric read_csv convert_to_event_log
     bottleneck_analysis_apply format_metric).
Local Abbreviation generate_bpmn_xml_content :=
  (generate_bpmn_xml_content EventLog log_column get_xml_as_string).
Local Abbreviation main :=
  (main Cell EventLog Model Metric read_csv convert_to_event_log
     alpha_miner_apply bottleneck_analysis_apply format_metric).
Local Abbreviation read_log path :=
  (read_csv path [lit "timestamp"]
     [(lit "case_id", dtype_str); (lit "activity", dtype_str)]).

(** *** Loading *)

(** An error of the reader or of the converter leaves the method without
    a log: nothing in the method catches it. *)
Lemma load_and_convert_log_propagates (self : analyzer) (e : exn) :
  (read_log (log_path _ self) = Raise e ->
   load_and_convert_log self = Raise e) /\
  (forall df,
     read_log (log_path _ self) = Ok df ->
     convert_to_event_log (rename pm4py_columns df) = Raise e ->
     load_and_convert_log self = Raise e).
Proof.
  unfold Analyzer.load_and_convert_log. split.
  - now intros ->.
  - intros df -> H. cbn [bind]. now rewrite H.
Qed.

Lemma to_records_rename (mapper : list (pystr * pystr)) (df : DataFrame Cell) :
  to_records (rename mapper df) = map (rename_keys mapper) (to_records df).
Proof.
  unfold to_records, rename. cbn [columns values]. rewrite map_map.
  apply map_ext. intros row. unfold rename_keys.
  generalize (columns df) as cols. intros cols. revert row.
  induction cols as [|c cols IH]; intros [|x row]; try reflexivity.
  simpl. now rewrite IH.
Qed.

Lemma rename_keys_values (mapper : list (pystr * pystr))
    (record : list (pystr * Cell)) :
  map snd (rename_keys mapper record) = map snd record.
Proof. unfold rename_keys. rewrite map_map. reflexivity. Qed.

Lemma rename_label_other (label : pystr) :
  label <> lit "case_id" -> label <> lit "activity" ->
  label <> lit "timestamp" ->
  rename_label pm4py_columns label = label.
Proof.
  intros H1 H2 H3. unfold rename_label, pm4py_columns. cbn [dict_get].
  destruct (str_eqb (lit "case_id") label) eqn:E1;
    [apply str_eqb_eq in E1; congruence|].
  destruct (str_eqb (lit "activity") label) eqn:E2;
    [apply str_eqb_eq in E2; congruence|].
  destruct (str_eqb (lit "timestamp") label) eqn:E3;
    [apply str_eqb_eq in E3; congruence|].
  reflexivity.
Qed.

(** What the method itself does with the table: it hands the converter
    the table it read with every row and every cell value in place and
    the keys case_id, activity and timestamp renamed to the three pm4py
    names (every other label kept), and it returns and stores whatever
    the converter returns.  How many records that log holds, and what
    the reader made of the rows of the file, is the libraries' doing. *)
Lemma load_and_convert_log_renames (self : analyzer) :
  load_and_convert_log self =
    (df <- read_log (log_path _ self) ;;
     log <- convert_to_event_log (rename pm4py_columns df) ;;
     Ok (log, {| log_path := log_path _ self; event_log := Some log |})) /\
  (forall df : DataFrame Cell,
     values (rename pm4py_columns df) = values df /\
     to_records (rename pm4py_columns df) =
       map (rename_keys pm4py_columns) (to_records df)) /\
  (forall record : list (pystr * Cell),
     map snd (rename_keys pm4py_columns record) = map snd record) /\
  rename_label pm4py_columns (lit "case_id") = lit "case:concept:name" /\
  rename_label pm4py_columns (lit "activity") = lit "concept:name" /\
  rename_label pm4py_columns (lit "timestamp") = lit "time:timestamp" /\
  (forall label,
     label <> lit "case_id" -> label <> lit "activity" ->
     label <> lit "timestamp" ->
     rename_label pm4py_columns label = label).
Proof.
  split; [reflexivity|].
  split; [intros df; split; [reflexivity|apply to_records_rename]|].
  split; [apply rename_keys_values|].
  split; [vm_compute; reflexivity|].
  split; [vm_compute; reflexivity|].
  split; [vm_compute; reflexivity|].
  exact rename_label_other.
Qed.

(** *** The diagram *)

(** C9: the synthesizer raises on no sequence of activity labels, the
    empty one included: every index it computes is in range.  So
    [generate_bpmn_xml_content] returns the serialized diagram whenever
    the log is loaded and yields its column of activity labels. *)
Theorem generate_bpmn_xml_content_total :
  (forall activities : list pystr,
     exists d, build_bpmn_diagram activities = Ok d) /\
  (forall (self : analyzer) (log : EventLog) (names : list pystr),
     event_log _ self = Some log ->
     log_column log (lit "concept:name") = Ok names ->
     exists d,
       build_bpmn_diagram (unique names) = Ok d /\
       generate_bpmn_xml_content self = Ok (get_xml_as_string d)).
Proof.
  split.
  - intros activities. rewrite build_bpmn_diagram_eq. eauto.
  - intros self log names Hlog Hnames.
    unfold Analyzer.generate_bpmn_xml_content.
    rewrite Hlog. cbn [bind]. rewrite Hnames. cbn [bind].
    rewrite build_bpmn_diagram_eq. cbn [bind]. eauto.
Qed.

(** *** The bottleneck lines *)

Lemma bottleneck_fold_length
    (f : list pystr -> pystr * list (pystr * Metric) -> list pystr)
    (bottlenecks : list (pystr * list (pystr * Metric))) :
  (forall info b, exists line, f info b = info ++ [line]) ->
  forall info,
    length (fold_left f bottlenecks info) = length info + length bottlenecks.
Proof.
  intros Hf. induction bottlenecks as [|b bs IH]; intros info; simpl.
  - lia.
  - rewrite IH. destruct (Hf info b) as [line ->].
    rewrite length_app. simpl. lia.
Qed.

Lemma bottleneck_lines_length
    (bottlenecks : list (pystr * list (pystr * Metric))) :
  length (bottleneck_lines bottlenecks) = Nat.max 1 (length bottlenecks).
Proof.
  unfold Analyzer.bottleneck_lines.
  destruct bottlenecks as [|b bs]; [reflexivity|].
  rewrite bottleneck_fold_length.
  - simpl. lia.
  - intros info [activity metrics]. eauto.
Qed.

(** C10: for every result of the bottleneck analysis the list of lines
    is not empty, and for the empty result it is the one placeholder
    line; hence whenever [identify_bottlenecks] returns, the templater
    called on its lines renders them under the heading, and the text
    that [main] writes never comes from the branch for an empty list. *)
Theorem identify_bottlenecks_nonempty :
  (forall bottlenecks,
     bottleneck_lines bottlenecks <> [] /\
     (bottlenecks = [] ->
      bottleneck_lines bottlenecks =
        [lit "Nenhum gargalo significativo identificado."])) /\
  (forall (self self' : analyzer) (lines : list pystr),
     identify_bottlenecks self = Ok (lines, self') ->
     lines <> [] /\
     generate_sankhya_flow_script lines =
       Ok (header_block ++ found_heading ++ concat (map rendered lines)
             ++ footer_line)) /\
  (forall script,
     main = Ok script ->
     exists lines,
       lines <> [] /\
       script = header_block ++ found_heading ++ concat (map rendered lines)
                  ++ footer_line).
Proof.
  assert (Hne : forall bottlenecks, bottleneck_lines bottlenecks <> []).
  { intros bottlenecks H. apply (f_equal (@length _)) in H.
    rewrite bottleneck_lines_length in H. cbn [length] in H. lia. }
  assert (Hgen : forall lines, lines <> [] ->
            generate_sankhya_flow_script lines =
              Ok (header_block ++ found_heading
                    ++ concat (map rendered lines) ++ footer_line)).
  { intros lines Hl. rewrite generate_sankhya_flow_script_eq.
    destruct lines; [contradiction|]. now rewrite <- app_assoc. }
  assert (Hid : forall (self self' : analyzer) lines,
            identify_bottlenecks self = Ok (lines, self') -> lines <> []).
  { intros self self' lines H. unfold Analyzer.identify_bottlenecks in H.
    destruct (loaded self) as [[log s]|e]; [|discriminate].
    cbn [bind] in H.
    destruct (bottleneck_analysis_apply log) as [b|e]; [|discriminate].
    cbn [bind] in H. inversion H; subst. apply Hne. }
  split; [|split].
  - intros bottlenecks. split; [apply Hne|]. now intros ->.
  - intros self self' lines H. split; [eapply Hid; eauto|].
    apply Hgen. eapply Hid; eauto.
  - intros script H. unfold Analyzer.main in H.
    destruct (load_and_convert_log _) as [[log a1]|e]; [|discriminate].
    cbn [bind] in H.
    destruct (discover_process_model a1) as [[model a2]|e]; [|discriminate].
    cbn [bind] in H.
    destruct (identify_bottlenecks a2) as [[lines a3]|e] eqn:E;
      [|discriminate].
    cbn [bind] in H. apply Hid in E.
    rewrite (Hgen _ E) in H. cbn [bind] in H. inversion H; subst.
    now exists lines.
Qed.

End AnalyzerProperties.

(** ** The properties on the small run *)

Section SampleRun.
Import Pandas Bpmn Sankhya Analyzer.

Lemma generate_bpmn_xml_content_total_witness :
  exists d,
    build_bpmn_diagram [lit "Receive Order"; lit "Approve"] = Ok d /\
    generate_bpmn_xml_content _ Sample.log_column Sample.get_xml_as_string
      Sample.loaded_analyzer = Ok (Sample.get_xml_as_string d).
Proof.
  destruct (generate_bpmn_xml_content_total _
              Sample.log_column Sample.get_xml_as_string) as [_ H].
  destruct (H Sample.loaded_analyzer Sample.log
              [lit "Receive Order"; lit "Approve"]) as (d & Hd & Hx).
  - reflexivity.
  - vm_compute; reflexivity.
  - exists d. split; [|exact Hx].
    rewrite <- Hd. vm_compute; reflexivity.
Defined.

Lemma identify_bottlenecks_nonempty_witness :
  exists lines self',
    identify_bottlenecks _ _ _ Sample.read_csv Sample.convert_to_event_log
      Sample.bottleneck_analysis_apply Sample.format_metric
      Sample.analyzer = Ok (lines, self') /\
    lines = [lit "Nenhum gargalo significativo identificado."] /\
    lines <> [].
Proof.
  exists [lit "Nenhum gargalo significativo identificado."].
  exists Sample.loaded_analyzer.
  assert (E : identify_bottlenecks _ _ _ Sample.read_csv
                Sample.convert_to_event_log
                Sample.bottleneck_analysis_apply Sample.format_metric
                Sample.analyzer
              = Ok ([lit "Nenhum gargalo significativo identificado."],
                    Sample.loaded_analyzer)) by reflexivity.
  split; [exact E|]. split; [reflexivity|].
  destruct (identify_bottlenecks_nonempty pystr _ unit pystr
              Sample.read_csv Sample.convert_to_event_log
              Sample.alpha_miner_apply Sample.bottleneck_analysis_apply
              Sample.format_metric) as (_ & H & _).
  exact (proj1 (H _ _ _ E)).
Defined.

End SampleRun.

(** ** The report: further properties *)

Section ReportProperties.
Import Sankhya Report.

Lemma skipn_length_app (p x : pystr) : skipn (length p) (p ++ x) = x.
Proof. induction p as [|a p IH]; [reflexivity|exact IH]. Qed.

Lemma first_after_prefix (sep x : pystr) :
  sep <> [] -> first_after sep (sep ++ x) = Some x.
Proof.
  intros H. destruct sep as [|c sep]; [contradiction|].
  change ((c :: sep) ++ x) with (c :: (sep ++ x)).
  cbn [first_after].
  change (c :: (sep ++ x)) with ((c :: sep) ++ x).
  now rewrite startswith_app, skipn_length_app.
Qed.

(** A match that starts inside [a] either lies in [a] or runs over the
    character that follows it. *)
Lemma startswith_cross (m : pystr) :
  forall (a : pystr) (c : N) (r : pystr),
    startswith m (a ++ c :: r) = true ->
    startswith m a = true \/ In c m.
Proof.
  induction m as [|x m IH]; intros a c r H; [now left|].
  destruct a as [|y a].
  - simpl in H. apply andb_true_iff in H as [H _].
    apply N.eqb_eq in H. right. now left.
  - simpl in H. apply andb_true_iff in H as [Hxy H].
    destruct (IH _ _ _ H) as [Ha|Hc].
    + left. simpl. now rewrite Hxy, Ha.
    + right. now right.
Qed.

Lemma isin_cons_false (m : pystr) (x : N) (a : pystr) :
  isin m (x :: a) = false ->
  startswith m (x :: a) = false /\ isin m a = false.
Proof. simpl. intros H. now apply orb_false_iff in H. Qed.

(** Cutting [a ++ c :: r] at the first [m] and then at the first [c]
    gives back [a], when [c] occurs neither in [a] nor in [m] and [m]
    does not occur in [a]. *)
Lemma before_both (m : pystr) (c : N) (r : pystr) :
  m <> [] -> ~ In c m ->
  forall a,
    ~ In c a -> isin m a = false ->
    before [c] (before m (a ++ c :: r)) = a.
Proof.
  intros Hm Hcm. induction a as [|x a IH]; intros Hca Hma.
  - cbn [app]. cbn [before].
    destruct (startswith m (c :: r)) eqn:E.
    + destruct (startswith_cross m [] c r E) as [H|H]; [|contradiction].
      destruct m; [contradiction|discriminate].
    + cbn [before startswith]. now rewrite N.eqb_refl.
  - apply isin_cons_false in Hma as [Hs Hma].
    change ((x :: a) ++ c :: r) with (x :: (a ++ c :: r)).
    cbn [before].
    destruct (startswith m (x :: a ++ c :: r)) eqn:E.
    + destruct (startswith_cross m (x :: a) c r E) as [H|H];
        [congruence|contradiction].
    + cbn [before startswith].
      destruct (N.eqb_spec c x) as [->|Hcx].
      * exfalso. apply Hca. now left.
      * cbn [andb]. f_equal. apply IH; [|exact Hma].
        intros H. apply Hca. now right.
Qed.

Lemma marker_has_no_comma : ~ In 44%N marker.
Proof. vm_compute. intuition discriminate. Qed.

Lemma not_isin_char (c : N) (a : pystr) : isin [c] a = false -> ~ In c a.
Proof.
  induction a as [|x a IH]; intros H; [intros []|].
  apply isin_cons_false in H as [Hs H].
  intros [->|Hin]; [|now apply IH].
  simpl in Hs. now rewrite N.eqb_refl in Hs.
Qed.

(** The description written for an activity is rendered as its comment
    line followed by the template for that activity, when the name holds
    no comma, does not hold the marker and has no whitespace at its
    ends. *)
Lemma description_rendered (activity waiting service : pystr) :
  isin comma activity = false ->
  isin marker activity = false ->
  strip activity = activity ->
  isin marker (description activity waiting service) = true /\
  rendered (description activity waiting service) =
    comment_line (description activity waiting service)
      ++ activity_template activity.
Proof.
  intros Hc Hm Hs.
  set (rest := lit " Tempo Médio de Espera: " ++ waiting
                 ++ lit ", Tempo Médio de Serviço: " ++ service).
  assert (L : lit ", Tempo Médio de Espera: "
              = 44%N :: lit " Tempo Médio de Espera: ")
    by (vm_compute; reflexivity).
  assert (E : description activity waiting service
              = marker ++ activity ++ 44%N :: rest).
  { unfold description, marker, rest. rewrite L.
    now rewrite <- app_comm_cons. }
  assert (Hf : first_after marker (description activity waiting service)
               = Some (activity ++ 44%N :: rest))
    by (rewrite E; apply first_after_prefix, marker_nonempty).
  split; [now apply first_after_isin in Hf|].
  unfold rendered, extracted_name. rewrite Hf.
  change comma with [44%N].
  rewrite (before_both marker 44%N rest marker_nonempty marker_has_no_comma)
    by (try apply not_isin_char; assumption).
  now rewrite Hs.
Qed.

(** X5: when no line of a non-empty input holds the marker, the report
    is the header, the heading, each line as one comment, and the footer:
    no template text is emitted. *)
Theorem lines_without_marker_only_comments (bottlenecks : list pystr) :
  bottlenecks <> [] ->
  Forall (fun b => isin marker b = false) bottlenecks ->
  generate_sankhya_flow_script bottlenecks =
    Ok (header_block ++ found_heading
          ++ concat (map comment_line bottlenecks) ++ footer_line).
Proof.
  intros Hne Hall. rewrite generate_sankhya_flow_script_eq.
  assert (E : map rendered bottlenecks = map comment_line bottlenecks).
  { apply map_ext_in. intros b Hb.
    rewrite Forall_forall in Hall. unfold rendered.
    rewrite (not_isin_first_after _ _ (Hall b Hb)). apply app_nil_r. }
  destruct bottlenecks as [|b0 bs]; [contradiction|].
  now rewrite E, <- app_assoc.
Qed.

Lemma lines_without_marker_only_comments_witness :
  generate_sankhya_flow_script [placeholder; lit "Activity: X, y"] =
    Ok (header_block ++ found_heading
          ++ concat (map comment_line [placeholder; lit "Activity: X, y"])
          ++ footer_line).
Proof.
  apply lines_without_marker_only_comments.
  - discriminate.
  - repeat constructor; vm_compute; reflexivity.
Defined.

End ReportProperties.

(** ** The report is made of comments *)

Section CommentedReport.
Import Sankhya Report.

Lemma single_line_app (a b : pystr) :
  single_line (a ++ b) = single_line a && single_line b.
Proof. apply forallb_app. Qed.

Lemma single_line_incl (s t : pystr) :
  (forall c, In c t -> In c s) ->
  single_line s = true -> single_line t = true.
Proof.
  unfold single_line. intros Hin Hs. apply forallb_forall.
  intros c Hc. apply (proj1 (forallb_forall _ _) Hs). now apply Hin.
Qed.

Lemma lstrip_incl (s : pystr) (c : N) : In c (lstrip s) -> In c s.
Proof.
  induction s as [|x s IH]; [easy|]. simpl.
  destruct (isspace x); [intros H; right; now apply IH|easy].
Qed.

Lemma strip_incl (s : pystr) (c : N) : In c (strip s) -> In c s.
Proof.
  unfold strip, rstrip. intros H.
  apply in_rev, lstrip_incl, in_rev in H. now apply lstrip_incl.
Qed.

Lemma before_incl (sep s : pystr) (c : N) : In c (before sep s) -> In c s.
Proof.
  destruct (before_prefix sep s) as [r Hr]. intros H.
  rewrite Hr. apply in_or_app. now left.
Qed.

Lemma first_after_incl (sep s tail : pystr) (c : N) :
  first_after sep s = Some tail -> In c tail -> In c s.
Proof.
  intros H Hc. rewrite (first_after_decompose _ _ _ H).
  apply in_or_app. right. apply in_or_app. now right.
Qed.

Lemma extracted_name_single_line (bottleneck tail : pystr) :
  first_after marker bottleneck = Some tail ->
  single_line bottleneck = true ->
  single_line (extracted_name tail) = true.
Proof.
  intros Ht. apply single_line_incl. intros c Hc.
  unfold extracted_name in Hc.
  apply strip_incl, before_incl, before_incl in Hc.
  exact (first_after_incl _ _ _ _ Ht Hc).
Qed.

Lemma startswith_app_l (p a b : pystr) :
  startswith p a = true -> startswith p (a ++ b) = true.
Proof.
  intros H. rewrite (startswith_inv _ _ H), <- app_assoc.
  apply startswith_app.
Qed.

Lemma comment_prefix (a b : pystr) :
  startswith (lit "//") a = true -> comment_or_blank (a ++ b) = true.
Proof.
  intros H. unfold comment_or_blank.
  destruct (a ++ b) eqn:E; [reflexivity|].
  rewrite <- E. now apply startswith_app_l.
Qed.

Lemma unlines_app (a b : list pystr) :
  unlines (a ++ b) = unlines a ++ unlines b.
Proof. unfold unlines. now rewrite map_app, concat_app. Qed.

(** A text put together from literals and from one-line parts, behind a
    literal that opens a comment. *)
Ltac commented_line :=
  split;
  [ rewrite ?single_line_app;
    repeat match goal with
           | H : single_line _ = true |- _ => rewrite H
           end;
    vm_compute; reflexivity
  | try (apply comment_prefix); vm_compute; reflexivity ].

Lemma template_lines_commented (activity_name : pystr) :
  single_line activity_name = true ->
  Forall commented (template_lines activity_name).
Proof.
  intros H. unfold template_lines.
  repeat (apply Forall_cons; [commented_line|]).
  apply Forall_nil.
Qed.

Lemma template_unlines (activity_name : pystr) :
  activity_template activity_name = unlines (template_lines activity_name).
Proof.
  unfold activity_template, query_line, branch_line, error_line,
    unlines, template_lines.
  cbn [map concat]. rewrite <- !app_assoc. cbn [app].
  rewrite app_nil_r. reflexivity.
Qed.

Lemma rendered_unlines (bottleneck : pystr) :
  rendered bottleneck = unlines (rendered_lines bottleneck).
Proof.
  unfold rendered, rendered_lines, comment_line.
  change (unlines ((lit "// " ++ bottleneck) ::
            match first_after marker bottleneck with
            | Some tail => template_lines (extracted_name tail)
            | None => []
            end))
    with (((lit "// " ++ bottleneck) ++ nl) ++
          unlines match first_after marker bottleneck with
                  | Some tail => template_lines (extracted_name tail)
                  | None => []
                  end).
  rewrite <- !app_assoc. do 3 f_equal.
  destruct (first_after marker bottleneck);
    [apply template_unlines|reflexivity].
Qed.

Lemma rendered_lines_commented (bottleneck : pystr) :
  single_line bottleneck = true ->
  Forall commented (rendered_lines bottleneck).
Proof.
  intros H. unfold rendered_lines. apply Forall_cons.
  - commented_line.
  - destruct (first_after marker bottleneck) as [tail|] eqn:E;
      [|apply Forall_nil].
    apply template_lines_commented.
    exact (extracted_name_single_line _ _ E H).
Qed.

Lemma body_unlines (bottlenecks : list pystr) :
  concat (map rendered bottlenecks) =
  unlines (flat_map rendered_lines bottlenecks).
Proof.
  induction bottlenecks as [|b bs IH]; [reflexivity|].
  cbn [map concat flat_map].
  now rewrite unlines_app, IH, rendered_unlines.
Qed.

(** X6: when no input line holds a line terminator (LF, CR, LS, PS), the
    report is a sequence of newline-ended lines each of which holds no
    line terminator and is empty or starts with "//": nothing in the
    generated script is outside a comment. *)
Theorem report_is_all_comments (bottlenecks : list pystr) :
  Forall (fun b => single_line b = true) bottlenecks ->
  exists ls,
    generate_sankhya_flow_script bottlenecks = Ok (unlines ls) /\
    Forall (fun l => single_line l = true /\ comment_or_blank l = true) ls.
Proof.
  intros Hall. rewrite generate_sankhya_flow_script_eq.
  assert (Hh : header_block = unlines header_lines)
    by (vm_compute; reflexivity).
  assert (Hf : footer_line =
               unlines [lit "// Para mais informações sobre as APIs JavaScript do Sankhya, consulte a documentação oficial."])
    by (vm_compute; reflexivity).
  assert (Hhc : Forall commented header_lines)
    by (repeat (apply Forall_cons; [commented_line|]); apply Forall_nil).
  rewrite Hh, Hf.
  destruct bottlenecks as [|b0 bs].
  - assert (Hn : no_bottleneck_line =
                 unlines [lit "// Nenhum gargalo significativo identificado para gerar automações."])
      by (vm_compute; reflexivity).
    rewrite Hn, <- !unlines_app. eexists. split; [reflexivity|].
    apply Forall_app. split; [exact Hhc|].
    repeat (apply Forall_cons; [commented_line|]). apply Forall_nil.
  - assert (Hg : found_heading =
                 unlines [lit "// Gargalos identificados e sugestões de otimização:"])
      by (vm_compute; reflexivity).
    rewrite Hg, body_unlines, <- !unlines_app.
    eexists. split; [reflexivity|].
    apply Forall_app. split; [exact Hhc|].
    apply Forall_app. split.
    + apply Forall_app. split.
      * repeat (apply Forall_cons; [commented_line|]). apply Forall_nil.
      * apply Forall_flat_map.
        eapply Forall_impl; [|exact Hall].
        intros b Hb. now apply rendered_lines_commented.
    + repeat (apply Forall_cons; [commented_line|]). apply Forall_nil.
Qed.

Lemma report_is_all_comments_witness :
  exists ls,
    generate_sankhya_flow_script [approve_line; placeholder] =
      Ok (unlines ls) /\
    Forall (fun l => single_line l = true /\ comment_or_blank l = true) ls.
Proof.
  apply (report_is_all_comments [approve_line; placeholder]).
  repeat constructor; vm_compute; reflexivity.
Defined.

End CommentedReport.

(** ** The analyzer: loading, the diagram of a log, the whole run *)

Section AnalyzerRun.
Import Pandas Bpmn Sankhya Report Analyzer.

Variable Cell : Type.
Variable EventLog : Type.
Variable Model : Type.
Variable Metric : Type.
Variable read_csv :
  pystr -> list pystr -> list (pystr * dtype) -> result (DataFrame Cell).
Variable convert_to_event_log : DataFrame Cell -> result EventLog.
Variable log_column : EventLog -> pystr -> result (list pystr).
Variable alpha_miner_apply : EventLog -> result Model.
Variable bottleneck_analysis_apply :
  EventLog -> result (list (pystr * list (pystr * Metric))).
Variable format_metric : Metric -> pystr.
Variable get_xml_as_string : BPMNDiagram -> pystr.

Local Abbreviation analyzer := (ProcessAnalyzer EventLog).
Local Abbreviation load_and_convert_log :=
  (load_and_convert_log Cell EventLog read_csv convert_to_event_log).
Local Abbreviation discover_process_model :=
  (discover_process_model Cell EventLog Model read_csv convert_to_event_log
     alpha_miner_apply).
Local Abbreviation metric_text := (metric_text Metric format_metric).
Local Abbreviation bottleneck_lines := (bottleneck_lines Metric format_metric).
Local Abbreviation identify_bottlenecks :=
  (identify_bottlenecks Cell EventLog Metric read_csv convert_to_event_log
     bottleneck_analysis_apply format_metric).
Local Abbreviation generate_bpmn_xml_content :=
  (generate_bpmn_xml_content EventLog log_column get_xml_as_string).
Local Abbreviation main :=
  (main Cell EventLog Model Metric read_csv convert_to_event_log
     alpha_miner_apply bottleneck_analysis_apply format_metric).
Local Abbreviation read_log path :=
  (read_csv path [lit "timestamp"]
     [(lit "case_id", dtype_str); (lit "activity", dtype_str)]).

Local Abbreviation describe := (describe Metric format_metric).

Lemma load_and_convert_log_eq (self : analyzer) :
  load_and_convert_log self =
  (df <- read_log (log_path _ self) ;;
   log <- convert_to_event_log (rename pm4py_columns df) ;;
   Ok (log, {| log_path := log_path _ self; event_log := Some log |})).
Proof. reflexivity. Qed.

Lemma load_keeps_log (self self' : analyzer) (log : EventLog) :
  load_and_convert_log self = Ok (log, self') ->
  event_log _ self' = Some log /\ log_path _ self' = log_path _ self.
Proof.
  intros H. rewrite load_and_convert_log_eq in H.
  destruct (read_log _) as [df|e]; [|discriminate]. cbn [bind] in H.
  destruct (convert_to_event_log _) as [l|e]; [|discriminate].
  cbn [bind] in H. inversion H; subst. now split.
Qed.

(** X1: a method that returns leaves the analyzer holding the log it
    worked on, under the path it had; and on an analyzer that already
    holds a log, [discover_process_model] and [identify_bottlenecks] go
    straight to the library with that log and return the analyzer as it
    was: the file is not read again. *)
Theorem lazy_loading (self : analyzer) :
  (forall log self',
     load_and_convert_log self = Ok (log, self') ->
     event_log _ self' = Some log /\ log_path _ self' = log_path _ self) /\
  (forall model self',
     discover_process_model self = Ok (model, self') ->
     log_path _ self' = log_path _ self /\
     exists log, event_log _ self' = Some log /\
                 alpha_miner_apply log = Ok model) /\
  (forall lines self',
     identify_bottlenecks self = Ok (lines, self') ->
     log_path _ self' = log_path _ self /\
     exists log bottlenecks,
       event_log _ self' = Some log /\
       bottleneck_analysis_apply log = Ok bottlenecks /\
       lines = bottleneck_lines bottlenecks) /\
  (forall log,
     event_log _ self = Some log ->
     discover_process_model self =
       (model <- alpha_miner_apply log ;; Ok (model, self)) /\
     identify_bottlenecks self =
       (bottlenecks <- bottleneck_analysis_apply log ;;
        Ok (bottleneck_lines bottlenecks, self))).
Proof.
  assert (Hload : forall log self',
            load_and_convert_log self = Ok (log, self') ->
            event_log _ self' = Some log /\
            log_path _ self' = log_path _ self).
  { intros log self'. apply load_keeps_log. }
  assert (Hloaded : forall log self',
            loaded Cell EventLog read_csv convert_to_event_log self
              = Ok (log, self') ->
            event_log _ self' = Some log /\
            log_path _ self' = log_path _ self).
  { intros log self' H. unfold loaded in H.
    destruct (event_log _ self) as [l|] eqn:E.
    - inversion H; subst. now split.
    - now apply Hload. }
  split; [exact Hload|]. split; [|split].
  - intros model self' H. unfold Analyzer.discover_process_model in H.
    case_eq (loaded Cell EventLog read_csv convert_to_event_log self);
      [intros [log s] E|intros e E]; rewrite E in H; [|discriminate].
    cbn [bind] in H. destruct (Hloaded _ _ E) as [H1 H2].
    destruct (alpha_miner_apply log) as [m|e] eqn:Ea; [|discriminate].
    cbn [bind] in H. inversion H; subst. split; [exact H2|].
    exists log. now split.
  - intros lines self' H. unfold Analyzer.identify_bottlenecks in H.
    case_eq (loaded Cell EventLog read_csv convert_to_event_log self);
      [intros [log s] E|intros e E]; rewrite E in H; [|discriminate].
    cbn [bind] in H. destruct (Hloaded _ _ E) as [H1 H2].
    destruct (bottleneck_analysis_apply log) as [b|e] eqn:Eb;
      [|discriminate].
    cbn [bind] in H. inversion H; subst. split; [exact H2|].
    exists log, b. now repeat split.
  - intros log Hlog.
    unfold Analyzer.discover_process_model, Analyzer.identify_bottlenecks,
      loaded.
    rewrite Hlog. now split.
Qed.

(** X2: [generate_bpmn_xml_content] does not load the log itself: on an
    analyzer without a log it raises [TypeError] whatever the libraries
    do; after a [load_and_convert_log] that returned it yields the
    serialized diagram of the distinct activity labels, or the error of
    the column lookup. *)
Theorem generate_bpmn_needs_loaded_log :
  (forall self : analyzer,
     event_log _ self = None ->
     generate_bpmn_xml_content self = Raise TypeError) /\
  (forall (self self' : analyzer) log,
     load_and_convert_log self = Ok (log, self') ->
     (forall names,
        log_column log (lit "concept:name") = Ok names ->
        exists d,
          build_bpmn_diagram (unique names) = Ok d /\
          generate_bpmn_xml_content self' = Ok (get_xml_as_string d)) /\
     (forall e,
        log_column log (lit "concept:name") = Raise e ->
        generate_bpmn_xml_content self' = Raise e)).
Proof.
  split.
  - intros self H. unfold Analyzer.generate_bpmn_xml_content.
    now rewrite H.
  - intros self self' log H.
    destruct (load_keeps_log _ _ _ H) as [Hlog _].
    unfold Analyzer.generate_bpmn_xml_content. rewrite Hlog. cbn [bind].
    split.
    + intros names ->. cbn [bind]. rewrite build_bpmn_diagram_eq.
      cbn [bind]. eauto.
    + now intros e ->.
Qed.

Lemma in_unique_from (l : list pystr) :
  forall seen x, In x l -> ~ In x seen -> In x (unique_from seen l).
Proof.
  induction l as [|a l IH]; intros seen x Hx Hs; [contradiction|].
  simpl. destruct (existsb (str_eqb a) seen) eqn:E.
  - destruct Hx as [->|Hx]; [|now apply IH].
    rewrite seen_false in E by exact Hs. discriminate.
  - destruct (list_eq_dec N.eq_dec a x) as [->|Hax]; [now left|].
    right. destruct Hx as [->|Hx]; [contradiction|].
    apply IH; [exact Hx|]. intros [->|H]; [now apply Hax|contradiction].
Qed.

Lemma consecutive_in (p : list pystr) (s t : pystr) :
  In (s, t) (consecutive p) -> In s p /\ In t p.
Proof.
  induction p as [|a p IH]; [contradiction|].
  destruct p as [|b p]; [contradiction|].
  rewrite consecutive_cons. intros [H|H].
  - inversion H; subst. split; [now left|right; now left].
  - destruct (IH H). split; now right.
Qed.

(** X3: for every column of activity labels, repeated or not, the
    synthesizer run on its distinct labels builds one task per distinct
    label of the column, with no id used by two tasks, then the two
    events; every edge joins ids of nodes of the diagram, and there is
    one edge more than there are tasks (none when there is no task). *)
Theorem diagram_of_column (names : list pystr) :
  exists d,
    build_bpmn_diagram (unique names) = Ok d /\
    flow_nodes d = map task_node (unique names) ++ [start_node; end_node] /\
    NoDup (unique names) /\
    (forall x, In x (unique names) <-> In x names) /\
    (forall s t, In (s, t) (edges d) ->
                 In s (node_ids d) /\ In t (node_ids d)) /\
    length (edges d) =
      match unique names with
      | [] => 0
      | _ :: _ => length (unique names) + 1
      end.
Proof.
  rewrite build_bpmn_diagram_eq. eexists. split; [reflexivity|].
  split; [reflexivity|]. split; [apply unique_NoDup|].
  split.
  { intros x. split.
    - intros H. now apply unique_from_spec in H.
    - intros H. apply in_unique_from; [exact H|intros []]. }
  unfold edges, node_ids. cbn [sequence_flows flow_nodes].
  rewrite edges_flows, map_app, node_ids_tasks.
  cbn [map node_id start_node end_node].
  destruct (unique names) as [|a0 t]; [split; [intros s t []|reflexivity]|].
  set (acts := a0 :: t). split.
  - intros s t' H. apply consecutive_in in H.
    assert (Hin : forall x, In x (start_event_id :: acts ++ [end_event_id])
                            -> In x (acts ++ [start_event_id; end_event_id])).
    { intros x [<-|Hx].
      - apply in_or_app. right. now left.
      - apply in_app_or in Hx as [Hx|[<-|[]]]; apply in_or_app;
          [now left|right; right; now left]. }
    destruct H. split; now apply Hin.
  - rewrite consecutive_length. simpl. rewrite length_app. simpl. lia.
Qed.

(** *** The lines of [identify_bottlenecks] *)

Lemma fold_append {A B} (g : list B -> A -> list B) (f : A -> B) :
  (forall acc x, g acc x = acc ++ [f x]) ->
  forall l acc, fold_left g l acc = acc ++ map f l.
Proof.
  intros Hg. induction l as [|x l IH]; intros acc; simpl.
  - now rewrite app_nil_r.
  - now rewrite IH, Hg, <- app_assoc.
Qed.

Lemma bottleneck_lines_map
    (bottlenecks : list (pystr * list (pystr * Metric))) :
  bottlenecks <> [] ->
  bottleneck_lines bottlenecks = map describe bottlenecks.
Proof.
  intros Hne. unfold Analyzer.bottleneck_lines.
  destruct bottlenecks as [|b bs]; [contradiction|].
  rewrite (fold_append _ describe); [reflexivity|].
  now intros acc [activity metrics].
Qed.

(** X4: a non-empty analysis gives one line per activity, in the order
    of the dict: the marker, the activity, then the two metrics, where a
    metric the analysis does not give reads "N/A". *)
Theorem bottleneck_lines_one_per_activity
    (bottlenecks : list (pystr * list (pystr * Metric))) :
  bottlenecks <> [] ->
  bottleneck_lines bottlenecks = map describe bottlenecks /\
  (forall activity metrics,
     In (activity, metrics) bottlenecks ->
     dict_get metrics (lit "avg_waiting_time") = None ->
     dict_get metrics (lit "avg_service_time") = None ->
     In (description activity (lit "N/A") (lit "N/A"))
        (bottleneck_lines bottlenecks)).
Proof.
  intros Hne.
  pose proof (bottleneck_lines_map bottlenecks Hne) as E.
  split; [exact E|].
  intros activity metrics Hin Hw Hs. rewrite E.
  apply in_map_iff. exists (activity, metrics). split; [|exact Hin].
  unfold describe, Analyzer.metric_text. cbn [fst snd].
  now rewrite Hw, Hs.
Qed.

(** X7: from the analysis to the report.  When the analysis is not empty
    and no activity name holds a comma or the marker or has whitespace
    at its ends, the report made from the lines of
    [identify_bottlenecks] holds, for each activity in order, its
    description as a comment followed by the template for exactly that
    activity. *)
Theorem report_of_analysis
    (bottlenecks : list (pystr * list (pystr * Metric))) :
  bottlenecks <> [] ->
  (forall activity metrics,
     In (activity, metrics) bottlenecks ->
     isin comma activity = false /\ isin marker activity = false /\
     strip activity = activity) ->
  generate_sankhya_flow_script (bottleneck_lines bottlenecks) =
    Ok (header_block ++ found_heading
          ++ concat (map (fun item =>
                            comment_line (describe item)
                              ++ activity_template (fst item))
                         bottlenecks)
          ++ footer_line).
Proof.
  intros Hne Hclean.
  rewrite (bottleneck_lines_map bottlenecks Hne),
    generate_sankhya_flow_script_eq.
  assert (Hm : map rendered (map describe bottlenecks) =
               map (fun item => comment_line (describe item)
                                  ++ activity_template (fst item))
                   bottlenecks).
  { rewrite map_map. apply map_ext_in. intros [activity metrics] Hin.
    destruct (Hclean _ _ Hin) as (Hc & Hk & Hs).
    now apply description_rendered. }
  destruct bottlenecks as [|b bs]; [contradiction|].
  cbn [map] in *. now rewrite Hm, <- app_assoc.
Qed.

(** *** The whole run *)

Lemma main_eq :
  main =
  (df <- read_log (lit "sankhya_processed_data.csv") ;;
   log <- convert_to_event_log (rename pm4py_columns df) ;;
   model <- alpha_miner_apply log ;;
   bottlenecks <- bottleneck_analysis_apply log ;;
   Ok (report (bottleneck_lines bottlenecks))).
Proof.
  unfold Analyzer.main. rewrite load_and_convert_log_eq.
  cbn [init log_path].
  destruct (read_log _) as [df|e]; [|reflexivity]. cbn [bind].
  destruct (convert_to_event_log _) as [log|e]; [|reflexivity]. cbn [bind].
  unfold Analyzer.discover_process_model, Analyzer.identify_bottlenecks,
    loaded.
  cbn [event_log bind].
  destruct (alpha_miner_apply log) as [model|e]; [|reflexivity].
  cbn [bind event_log].
  destruct (bottleneck_analysis_apply log) as [b|e]; [|reflexivity].
  cbn [bind].
  pose proof (bottleneck_lines_length Metric format_metric b) as Hlen.
  rewrite generate_sankhya_flow_script_eq.
  destruct (bottleneck_lines b) as [|l ls] eqn:E.
  - cbn [length] in Hlen. lia.
  - cbn [bind]. unfold report. now rewrite <- app_assoc.
Qed.

(** X8: the run writes a script exactly when the reader, the converter,
    the miner and the bottleneck analysis all return; the script is then
    the report of the lines for the analysis of the log converted from
    the renamed table.  The mined model is not used, yet the miner has
    to return. *)
Theorem main_succeeds_iff (script : pystr) :
  main = Ok script <->
  exists df log model bottlenecks,
    read_log (lit "sankhya_processed_data.csv") = Ok df /\
    convert_to_event_log (rename pm4py_columns df) = Ok log /\
    alpha_miner_apply log = Ok model /\
    bottleneck_analysis_apply log = Ok bottlenecks /\
    script = report (bottleneck_lines bottlenecks).
Proof.
  rewrite main_eq. split.
  - intros H.
    destruct (read_log _) as [df|e]; [|discriminate]. cbn [bind] in H.
    destruct (convert_to_event_log _) as [log|e] eqn:Ec; [|discriminate].
    cbn [bind] in H.
    destruct (alpha_miner_apply log) as [model|e] eqn:Ea; [|discriminate].
    cbn [bind] in H.
    destruct (bottleneck_analysis_apply log) as [b|e] eqn:Eb;
      [|discriminate].
    cbn [bind] in H. inversion H; subst.
    exists df, log, model, b. now repeat split.
  - intros (df & log & model & b & -> & Hc & Ha & Hb & ->).
    cbn [bind]. rewrite Hc. cbn [bind]. rewrite Ha. cbn [bind].
    now rewrite Hb.
Qed.

(** X9: the run fails exactly with the error of the first of the four
    library calls that raises; rendering the report never fails. *)
Theorem main_fails_iff (e : exn) :
  main = Raise e <->
  read_log (lit "sankhya_processed_data.csv") = Raise e \/
  (exists df,
     read_log (lit "sankhya_processed_data.csv") = Ok df /\
     (convert_to_event_log (rename pm4py_columns df) = Raise e \/
      exists log,
        convert_to_event_log (rename pm4py_columns df) = Ok log /\
        (alpha_miner_apply log = Raise e \/
         (exists model, alpha_miner_apply log = Ok model) /\
         bottleneck_analysis_apply log = Raise e))).
Proof.
  rewrite main_eq. split.
  - intros H.
    destruct (read_log _) as [df|e0]; cbn [bind] in H; [|left; now inversion H].
    right. exists df. split; [reflexivity|].
    destruct (convert_to_event_log _) as [log|e0]; cbn [bind] in H;
      [|left; now inversion H].
    right. exists log. split; [reflexivity|].
    destruct (alpha_miner_apply log) as [model|e0]; cbn [bind] in H;
      [|left; now inversion H].
    right. split; [now exists model|].
    destruct (bottleneck_analysis_apply log) as [b|e0]; cbn [bind] in H;
      [discriminate H|now inversion H].
  - intros [->|(df & -> & [Hc|(log & Hc & [Ha|[[model Ha] Hb]])])];
      cbn [bind]; try reflexivity; rewrite Hc; cbn [bind];
      try reflexivity; rewrite Ha; cbn [bind]; try reflexivity.
    now rewrite Hb.
Qed.

(** X10: when the analysis of the log finds nothing, the run still
    writes the heading for identified bottlenecks, followed by the
    placeholder as a comment; the line that the templater keeps for an
    empty list is not in the script. *)
Theorem main_without_bottlenecks (df : DataFrame Cell) (log : EventLog)
    (model : Model) :
  read_log (lit "sankhya_processed_data.csv") = Ok df ->
  convert_to_event_log (rename pm4py_columns df) = Ok log ->
  alpha_miner_apply log = Ok model ->
  bottleneck_analysis_apply log = Ok [] ->
  main = Ok (header_block ++ found_heading ++ comment_line placeholder
               ++ footer_line) /\
  isin no_bottleneck_line
       (header_block ++ found_heading ++ comment_line placeholder
          ++ footer_line) = false.
Proof.
  intros Hr Hc Ha Hb. split; [|vm_compute; reflexivity].
  rewrite main_eq, Hr. cbn [bind]. rewrite Hc. cbn [bind].
  rewrite Ha. cbn [bind]. rewrite Hb. cbn [bind].
  vm_compute. reflexivity.
Qed.

End AnalyzerRun.

(** ** Conformance: the properties *)

Section ConformanceProperties.
Import Pandas Bpmn Analyzer Conformance.

Variable Cell : Type.
Variable EventLog : Type.
Variable Model : Type.
Variable Value : Type.
Variable read_csv :
  pystr -> list pystr -> list (pystr * dtype) -> result (DataFrame Cell).
Variable convert_to_event_log : DataFrame Cell -> result EventLog.
Variable alignments_apply :
  EventLog -> Model -> result (list (list (pystr * Value))).
Variable is_one : Value -> bool.

Local Abbreviation perfect_count := (perfect_count Value is_one).
Local Abbreviation analyze_conformance :=
  (analyze_conformance Cell EventLog Model Value read_csv
     convert_to_event_log alignments_apply is_one).
Local Abbreviation count_step :=
  (fun (total : Z) (trace : list (pystr * Value)) =>
     fitness <- subscript trace (lit "fitness") ;;
     Ok (if is_one fitness then (total + 1)%Z else total)).

Lemma count_all_keyed (traces : list (list (pystr * Value))) :
  Forall has_fitness traces ->
  forall total,
    for_each count_step total traces =
    Ok (total + Z.of_nat (length (filter (perfect is_one) traces)))%Z.
Proof.
  induction 1 as [|trace traces Hk _ IH]; intros total.
  - simpl. f_equal. lia.
  - cbn [for_each filter]. unfold subscript, perfect, has_fitness in *.
    destruct (dict_get trace (lit "fitness")) as [v|]; [|contradiction].
    cbn [bind]. rewrite IH.
    destruct (is_one v); cbn [length]; f_equal; lia.
Qed.

Lemma count_missing_key (traces : list (list (pystr * Value))) :
  Exists lacks_fitness traces ->
  forall total,
    for_each count_step total traces = Raise (key_error (lit "fitness")).
Proof.
  induction 1 as [trace traces Hk|trace traces _ IH]; intros total.
  - cbn [for_each]. unfold subscript. unfold lacks_fitness in Hk.
    now rewrite Hk.
  - cbn [for_each]. unfold subscript.
    destruct (dict_get trace (lit "fitness")) as [v|]; [|reflexivity].
    cbn [bind]. apply IH.
Qed.

Lemma filter_length_bound {A} (f : A -> bool) (l : list A) :
  length (filter f l) <= length l.
Proof.
  induction l as [|x l IH]; [reflexivity|].
  simpl. destruct (f x); simpl; lia.
Qed.

(** X11: when every alignment has a "fitness" entry, the count of line
    60 is the number of alignments whose fitness equals 1.0, between 0
    and the number of alignments; when one of them has no such entry,
    evaluating the count raises [KeyError]. *)
Theorem perfect_count_spec (traces : list (list (pystr * Value))) :
  (Forall has_fitness traces ->
   exists n,
     perfect_count traces = Ok n /\
     n = Z.of_nat (length (filter (perfect is_one) traces)) /\
     (0 <= n <= len traces)%Z) /\
  (Exists lacks_fitness traces ->
   perfect_count traces = Raise (key_error (lit "fitness"))).
Proof.
  split.
  - intros H. eexists. split; [apply (count_all_keyed _ H)|].
    split; [reflexivity|].
    pose proof (filter_length_bound (perfect is_one) traces).
    unfold len. lia.
  - intros H. apply (count_missing_key _ H).
Qed.

(** X12: on an analyzer that holds a log, [analyze_conformance] returns
    the alignments of the library unchanged, and the analyzer as it was,
    when each alignment has a "fitness" entry; when one has none, the
    method raises [KeyError] although the alignments were computed; an
    error of the library is passed on. *)
Theorem analyze_conformance_result
    (self : ProcessAnalyzer EventLog) (log : EventLog) (model : Model) :
  event_log _ self = Some log ->
  (forall traces,
     alignments_apply log model = Ok traces ->
     (Forall has_fitness traces ->
      analyze_conformance self model = Ok (traces, self)) /\
     (Exists lacks_fitness traces ->
      analyze_conformance self model = Raise (key_error (lit "fitness")))) /\
  (forall e,
     alignments_apply log model = Raise e ->
     analyze_conformance self model = Raise e).
Proof.
  intros Hlog. unfold Conformance.analyze_conformance, loaded.
  rewrite Hlog. cbn [bind]. split.
  - intros traces ->. cbn [bind]. split; intros H.
    + unfold Conformance.perfect_count.
      now rewrite (count_all_keyed _ H).
    + unfold Conformance.perfect_count.
      now rewrite (count_missing_key _ H).
  - now intros e ->.
Qed.

End ConformanceProperties.

(** ** The further properties on the small run *)

Section ScenarioRun.
Import Pandas Bpmn Sankhya Report Analyzer Conformance.

Lemma lazy_loading_witness :
  event_log _ Sample.loaded_analyzer = Some Sample.log /\
  log_path _ Sample.loaded_analyzer = log_path _ Sample.analyzer.
Proof.
  destruct (lazy_loading pystr _ unit pystr
              Sample.read_csv Sample.convert_to_event_log
              Sample.alpha_miner_apply Sample.bottleneck_analysis_apply
              Sample.format_metric Sample.analyzer) as (H & _).
  apply (H Sample.log Sample.loaded_analyzer). reflexivity.
Defined.

Lemma generate_bpmn_needs_loaded_log_witness :
  generate_bpmn_xml_content _ Sample.log_column Sample.get_xml_as_string
    Sample.analyzer = Raise TypeError.
Proof.
  destruct (generate_bpmn_needs_loaded_log pystr _
              Sample.read_csv Sample.convert_to_event_log
              Sample.log_column Sample.get_xml_as_string) as (H & _).
  apply H. reflexivity.
Defined.

Lemma diagram_of_column_witness :
  exists d,
    build_bpmn_diagram (unique [lit "A"; lit "B"; lit "A"]) = Ok d /\
    forall s t, In (s, t) (edges d) ->
                In s (node_ids d) /\ In t (node_ids d).
Proof.
  destruct (diagram_of_column [lit "A"; lit "B"; lit "A"])
    as (d & Hd & _ & _ & _ & He & _).
  exists d. split; [exact Hd|exact He].
Defined.

Lemma bottleneck_lines_one_per_activity_witness :
  bottleneck_lines _ Sample.format_metric
    [(lit "Approve", [(lit "avg_waiting_time", lit "3.2")])] =
  [description (lit "Approve") (lit "3.2") (lit "N/A")].
Proof.
  destruct (bottleneck_lines_one_per_activity pystr Sample.format_metric
              [(lit "Approve", [(lit "avg_waiting_time", lit "3.2")])])
    as [E _].
  - discriminate.
  - exact E.
Defined.

Lemma report_of_analysis_witness :
  exists script,
    generate_sankhya_flow_script
      (bottleneck_lines _ Sample.format_metric
         [(lit "Approve", [(lit "avg_waiting_time", lit "3.2")])])
      = Ok script /\
    substring (activity_template (lit "Approve")) script.
Proof.
  eexists. split.
  - apply (report_of_analysis pystr Sample.format_metric
             [(lit "Approve", [(lit "avg_waiting_time", lit "3.2")])]).
    + discriminate.
    + intros activity metrics [H|[]]. inversion H; subst.
      repeat split; vm_compute; reflexivity.
  - cbn [map concat fst]. rewrite app_nil_r.
    apply substring_app_r, substring_app_r, substring_app_l,
      substring_app_r, substring_refl.
Defined.

Lemma main_succeeds_iff_witness :
  main pystr _ unit pystr Sample.read_csv Sample.convert_to_event_log
    Sample.alpha_miner_apply Scenario.bottleneck_analysis_apply
    Sample.format_metric
  = Ok (report [description (lit "Approve") (lit "3.2") (lit "N/A")]).
Proof.
  apply (main_succeeds_iff pystr _ unit pystr
           Sample.read_csv Sample.convert_to_event_log
           Sample.alpha_miner_apply Scenario.bottleneck_analysis_apply
           Sample.format_metric).
  exists Sample.frame, Sample.log, tt,
    [(lit "Approve", [(lit "avg_waiting_time", lit "3.2")])].
  repeat split.
Defined.

Lemma main_fails_iff_witness :
  main pystr (list (list (pystr * pystr))) unit pystr
    Scenario.read_csv_missing Sample.convert_to_event_log
    Sample.alpha_miner_apply Sample.bottleneck_analysis_apply
    Sample.format_metric
  = Raise (LibraryError (lit "FileNotFoundError")).
Proof.
  apply (main_fails_iff pystr _ unit pystr
           Scenario.read_csv_missing Sample.convert_to_event_log
           Sample.alpha_miner_apply Sample.bottleneck_analysis_apply
           Sample.format_metric).
  left. reflexivity.
Defined.

Lemma main_without_bottlenecks_witness :
  main pystr _ unit pystr Sample.read_csv Sample.convert_to_event_log
    Sample.alpha_miner_apply Sample.bottleneck_analysis_apply
    Sample.format_metric
  = Ok (header_block ++ found_heading ++ comment_line placeholder
          ++ footer_line).
Proof.
  apply (main_without_bottlenecks pystr _ unit pystr
           Sample.read_csv Sample.convert_to_event_log
           Sample.alpha_miner_apply Sample.bottleneck_analysis_apply
           Sample.format_metric Sample.frame Sample.log tt);
    reflexivity.
Defined.

Lemma two_alignments_keyed : Forall has_fitness Scenario.two_alignments.
Proof. repeat constructor; vm_compute; discriminate. Defined.

Lemma perfect_count_spec_witness :
  exists n,
    perfect_count _ Scenario.is_one Scenario.two_alignments = Ok n /\
    (0 <= n <= 2)%Z.
Proof.
  destruct (perfect_count_spec pystr Scenario.is_one Scenario.two_alignments)
    as [H _].
  destruct (H two_alignments_keyed) as (n & Hn & _ & Hb).
  exists n. split; [exact Hn|exact Hb].
Defined.

Lemma analyze_conformance_result_witness :
  analyze_conformance pystr _ unit pystr Sample.read_csv
    Sample.convert_to_event_log Scenario.alignments_apply Scenario.is_one
    Sample.loaded_analyzer tt
  = Ok (Scenario.two_alignments, Sample.loaded_analyzer).
Proof.
  destruct (analyze_conformance_result pystr _ unit pystr
              Sample.read_csv Sample.convert_to_event_log
              Scenario.alignments_apply Scenario.is_one
              Sample.loaded_analyzer Sample.log tt) as [H _];
    [reflexivity|].
  destruct (H Scenario.two_alignments) as [Hk _]; [reflexivity|].
  exact (Hk two_alignments_keyed).
Defined.

End ScenarioRun.
